(** * pses_kinect_utilities: depth image to XYZ point cloud nodelet

    A shallow embedding of [src/nodelets/point_cloud_xyz.cpp]:
    [PointCloudXYZNodelet::onInit], [connectCb] and [depthCb].

    - The nodelet is a record of its members, extended with what it does to
      the ROS side (log, published clouds, shutdown request). Callback bodies
      are written in a small state-and-exception monad, [Cb.t], so that the
      [try]/[catch] blocks of the source keep their shape.
    - Every call that leaves the nodelet and may fail ([cv::ocl::haveOpenCL],
      [cv_bridge::toCvCopy], the OpenCL setup, [convert_to_pcl]) takes its
      outcome from an [Env] record, one per run of [depthCb].
    - [cl_float] values are IEEE-754 binary32 numbers, computed with the
      executable specification of the Standard Library ([SpecFloat]).
    - The class [DepthImageToPCL] and the OpenCL kernel are not part of the
      sources: the projection they compute is modelled from sections 3 and
      4.2 of the specification (module [Engine], [convert_to_pcl]). *)

From Stdlib Require Import ZArith Bool.
From Stdlib Require Import Floats.SpecFloat.
From stdpp Require Import base option list strings gmap.

Local Open Scope Z_scope.

(** ** Single-precision floats ([cl_float])

    [cl_float] is IEEE-754 binary32: 24 bits of precision, infinities at
    exponent 128.  The operations are those of the Standard Library's
    executable specification of floating-point arithmetic. *)
Module F32.

Definition prec : Z := 24.
Definition emax : Z := 128.

Definition t : Type := spec_float.

Definition nan : t := S754_nan.
Definition zero : t := S754_zero false.

Definition of_Z (n : Z) : t := binary_normalize prec emax n 0 false.

Definition mul (a b : t) : t := SFmul prec emax a b.
Definition div (a b : t) : t := SFdiv prec emax a b.
Definition sub (a b : t) : t := SFsub prec emax a b.
Definition ltb (a b : t) : bool := SFltb a b.

Definition is_nan (a : t) : bool :=
  match a with S754_nan => true | _ => false end.

Definition is_finite (a : t) : bool :=
  match a with S754_zero _ | S754_finite _ _ _ => true | _ => false end.

Definition is_nonzero_finite (a : t) : bool :=
  match a with S754_finite _ _ _ => true | _ => false end.

(** [magnitude_below k a]: [a] is a zero, or a finite number with an
    exponent in the binary32 range and [|a| < 2^k]. *)
Definition magnitude_below (k : Z) (a : t) : bool :=
  match a with
  | S754_zero _ => true
  | S754_finite _ m e => (e <=? emax - prec) && (Zpos (digits2_pos m) + e <=? k)
  | _ => false
  end.

(** [magnitude_at_least k a]: [a] is finite, not zero, and [|a| >= 2^(k-1)]. *)
Definition magnitude_at_least (k : Z) (a : t) : bool :=
  match a with
  | S754_finite _ m e => k <=? Zpos (digits2_pos m) + e
  | _ => false
  end.

(** [fits k a]: the same as [magnitude_below k a], as a proposition. *)
Definition fits (k : Z) (a : t) : Prop :=
  match a with
  | S754_zero _ => True
  | S754_finite _ m e => e <= emax - prec /\ Zpos (digits2_pos m) + e <= k
  | _ => False
  end.

(** The literal [0.001f]: bit pattern [0x3A83126F], that is
    [8589935 * 2^-33]. *)
Definition lit_0_001 : t := S754_finite false 8589935 (-33).

(** The value [2.0f]. *)
Definition two : t := S754_finite false 8388608 (-22).

End F32.

(** ** Data model *)

(** [MetaData] as filled in by [depthCb] (lines 93-100): [cl_uint] fields are
    integers in [0, 2^32), [cl_float] fields are binary32 values. *)
Record MetaData := {
  md_width : Z;
  md_height : Z;
  md_n_pixels : Z;
  md_depth_scaling : F32.t;
  md_invalid_depth : Z;
  md_max_depth : F32.t;
  md_NaN : F32.t
}.

(** [Transform] as filled in by [depthCb] (lines 101-105). *)
Record Transform := {
  tf_cx : F32.t;
  tf_cy : F32.t;
  tf_fx : F32.t;
  tf_fy : F32.t
}.

(** One record of the output cloud ([pcl::PointXYZ]). *)
Record PointXYZ := {
  pt_x : F32.t;
  pt_y : F32.t;
  pt_z : F32.t
}.

Definition uint32_max : Z := 2 ^ 32.
Definition uint64_max : Z := 2 ^ 64.

(** ** The projection engine *)

Module Engine.

(** The invalid marker: all three components are the metadata's
    [not_a_number] value. *)
Definition invalid_marker (md : MetaData) : PointXYZ :=
  {| pt_x := md_NaN md; pt_y := md_NaN md; pt_z := md_NaN md |}.

(** Step 2 of the projection algorithm: is the sample [d] unprojectable? *)
Definition is_sentinel (md : MetaData) (d : Z) : bool :=
  d =? md_invalid_depth md.

Definition is_clamped (md : MetaData) (d : Z) : bool :=
  F32.ltb F32.zero (md_max_depth md)
  && F32.ltb (md_max_depth md) (F32.mul (F32.of_Z d) (md_depth_scaling md)).

(** Step 3 of the projection algorithm. *)
Definition depth_z (md : MetaData) (d : Z) : F32.t :=
  F32.mul (F32.of_Z d) (md_depth_scaling md).

Definition point_x (md : MetaData) (tf : Transform) (c d : Z) : F32.t :=
  F32.div (F32.mul (F32.sub (F32.of_Z c) (tf_cx tf)) (depth_z md d)) (tf_fx tf).

Definition point_y (md : MetaData) (tf : Transform) (r d : Z) : F32.t :=
  F32.div (F32.mul (F32.sub (F32.of_Z r) (tf_cy tf)) (depth_z md d)) (tf_fy tf).

Definition projected (md : MetaData) (tf : Transform) (r c d : Z) : PointXYZ :=
  {| pt_x := point_x md tf c d; pt_y := point_y md tf r d; pt_z := depth_z md d |}.

(** Modelled from the spec: the per-pixel body of the OpenCL kernel
    [depth_to_pcl] (file [ocl_kernel/ocl_kernel.cl], absent from the
    sources), following section 4.2, steps 1 to 3. *)
Definition project_pixel (md : MetaData) (tf : Transform) (r c d : Z) : PointXYZ :=
  if is_sentinel md d || is_clamped md d
  then invalid_marker md
  else projected md tf r c d.

(** Row and column of the pixel at index [i] of a row-major frame. *)
Definition row_of (md : MetaData) (i : nat) : Z := Z.of_nat i / md_width md.
Definition col_of (md : MetaData) (i : nat) : Z := Z.of_nat i mod md_width md.

Inductive ProjectError :=
| InputSizeMismatch.

(** Modelled from the spec: [DepthImageToPCL::convert_to_pcl] restricted to
    the depth samples (class [DepthImageToPCL] is declared in
    [pses_kinect_utilities/point_cloud_xyz.h], absent from the sources):
    the frame must hold [pixel_count] samples, and every pixel is projected
    independently, in input order. *)
Definition project (md : MetaData) (tf : Transform) (frame : list Z)
  : ProjectError + list PointXYZ :=
  if decide (Z.of_nat (length frame) = md_n_pixels md)
  then inr (imap (fun i d => project_pixel md tf (row_of md i) (col_of md i) d) frame)
  else inl InputSizeMismatch.

End Engine.

(** ** Invariants of the data model (section 3) *)

(** Positive width, a pixel count that fits [cl_uint], and a scaling factor
    below one (0.001 in this design). *)
Definition wf_metadata (md : MetaData) : bool :=
  (1 <=? md_width md) && (md_n_pixels md <=? uint32_max)
  && F32.magnitude_below 0 (md_depth_scaling md).

(** A principal point within [2^64] pixels and focal lengths that are finite
    and not zero. *)
Definition wf_transform (tf : Transform) : bool :=
  F32.magnitude_below 64 (tf_cx tf) && F32.magnitude_below 64 (tf_cy tf)
  && F32.is_nonzero_finite (tf_fx tf) && F32.is_nonzero_finite (tf_fy tf).

(** Focal lengths of one pixel or more. *)
Definition focal_at_least_one (tf : Transform) : bool :=
  F32.magnitude_at_least 1 (tf_fx tf) && F32.magnitude_at_least 1 (tf_fy tf).

(** Raw depth samples are unsigned 32-bit integers at most. *)
Definition is_uint32 (d : Z) : bool := (0 <=? d) && (d <? uint32_max).

(** No component is a NaN: the point is not the marker, not even in part. *)
Definition point_is_number (p : PointXYZ) : bool :=
  negb (F32.is_nan (pt_x p)) && negb (F32.is_nan (pt_y p)) && negb (F32.is_nan (pt_z p)).

(** Every component is a finite number. *)
Definition point_is_finite (p : PointXYZ) : bool :=
  F32.is_finite (pt_x p) && F32.is_finite (pt_y p) && F32.is_finite (pt_z p).

(** ** Messages and the outside world *)

(** [ros::Time]: two [uint32] fields. *)
Record Time := {
  sec : Z;
  nsec : Z
}.

(** [ros::Time::toNSec]: [(uint64_t)sec * 1000000000ull + (uint64_t)nsec]. *)
Definition toNSec (t : Time) : Z :=
  (sec t * 1000000000 + nsec t) mod uint64_max.

(** [sensor_msgs::Image], its [data] seen as the row-major raw depth samples. *)
Record ImageMsg := {
  img_stamp : Time;
  img_frame_id : string;
  img_height : Z;
  img_width : Z;
  img_encoding : string;
  img_data : list Z
}.

(** The four scalars that [camera_model_] serves after
    [fromCameraInfo (info_msg)], already cast to [cl_float]. *)
Record CameraInfoMsg := {
  info_cx : F32.t;
  info_cy : F32.t;
  info_fx : F32.t;
  info_fy : F32.t
}.

(** [pcl::PointCloud<pcl::PointXYZ>] with the header fields [depthCb] writes. *)
Record PointCloud := {
  pc_stamp : Z;
  pc_frame_id : string;
  pc_width : Z;
  pc_height : Z;
  pc_is_dense : bool;
  pc_points : list PointXYZ
}.

(** A [std::exception] in flight: its [what()] text, and whether it tells that
    the compute backend is lost for good (in C++ this is the dynamic type and
    error code of the exception, which a handler for [std::exception&] that
    only reads [what()] does not look at). *)
Record Exception := {
  what : string;
  backend_lost : bool
}.

Inductive LogLevel := LDebug | LInfo | LError.

(** Method calls received by the [pcl_conversion_] object, in order. *)
Inductive EngineCall :=
| SetMetaData (md : MetaData)
| SetTFData (tf : Transform)
| InitCloud
| InitCL (path : string)
| ProgramKernel (name : string)
| InitBuffers
| ConvertToPcl.

(** Modelled from the spec: the state of a [DepthImageToPCL] object (class
    declared in [pses_kinect_utilities/point_cloud_xyz.h], absent from the
    sources): the metadata and transform copied in by the setters, whether
    kernel and buffers are ready for use, whether the engine has failed, and
    the calls received so far. *)
Record DepthImageToPCL := {
  eng_md : option MetaData;
  eng_tf : option Transform;
  eng_prepared : bool;
  eng_failed : bool;
  eng_calls : list EngineCall
}.

Definition new_DepthImageToPCL : DepthImageToPCL :=
  {| eng_md := None; eng_tf := None; eng_prepared := false; eng_failed := false;
     eng_calls := [] |}.

(** The three states of the engine (section 4.2). *)
Inductive EngineState := Uninitialized | Prepared | Failed.

Definition engine_state (e : DepthImageToPCL) : EngineState :=
  if eng_prepared e then Prepared
  else if eng_failed e then Failed
  else Uninitialized.

(** What the environment does during one run of [depthCb]: the outcome of
    every call that leaves the nodelet. [None] means the call returns
    normally. *)
Record Env := {
  haveOpenCL : bool;
  toCvCopy_throws : option string;
  init_CL_throws : option Exception;
  program_kernel_throws : option Exception;
  init_buffers_throws : option Exception;
  convert_to_pcl_throws : option Exception
}.

(** ** The nodelet *)

Record Nodelet := {
  (* members of PointCloudXYZNodelet *)
  kernel_ready_ : bool;
  queue_size_ : Z;
  tf_frame_ : string;
  cl_file_path_ : string;
  camera_model_ : option CameraInfoMsg;
  pcl_conversion_ : DepthImageToPCL;
  sub_depth_ : bool;
  (* effects on the ROS side *)
  ros_log : list (LogLevel * string);
  published : list PointCloud;
  shutdown_requested : bool
}.

Definition set_kernel_ready (b : bool) (n : Nodelet) : Nodelet :=
  {| kernel_ready_ := b; queue_size_ := queue_size_ n; tf_frame_ := tf_frame_ n;
     cl_file_path_ := cl_file_path_ n; camera_model_ := camera_model_ n;
     pcl_conversion_ := pcl_conversion_ n; sub_depth_ := sub_depth_ n;
     ros_log := ros_log n; published := published n;
     shutdown_requested := shutdown_requested n |}.

Definition set_camera_model (i : CameraInfoMsg) (n : Nodelet) : Nodelet :=
  {| kernel_ready_ := kernel_ready_ n; queue_size_ := queue_size_ n; tf_frame_ := tf_frame_ n;
     cl_file_path_ := cl_file_path_ n; camera_model_ := Some i;
     pcl_conversion_ := pcl_conversion_ n; sub_depth_ := sub_depth_ n;
     ros_log := ros_log n; published := published n;
     shutdown_requested := shutdown_requested n |}.

Definition set_engine (e : DepthImageToPCL) (n : Nodelet) : Nodelet :=
  {| kernel_ready_ := kernel_ready_ n; queue_size_ := queue_size_ n; tf_frame_ := tf_frame_ n;
     cl_file_path_ := cl_file_path_ n; camera_model_ := camera_model_ n;
     pcl_conversion_ := e; sub_depth_ := sub_depth_ n;
     ros_log := ros_log n; published := published n;
     shutdown_requested := shutdown_requested n |}.

Definition set_sub_depth (b : bool) (n : Nodelet) : Nodelet :=
  {| kernel_ready_ := kernel_ready_ n; queue_size_ := queue_size_ n; tf_frame_ := tf_frame_ n;
     cl_file_path_ := cl_file_path_ n; camera_model_ := camera_model_ n;
     pcl_conversion_ := pcl_conversion_ n; sub_depth_ := b;
     ros_log := ros_log n; published := published n;
     shutdown_requested := shutdown_requested n |}.

Definition add_log (l : LogLevel) (msg : string) (n : Nodelet) : Nodelet :=
  {| kernel_ready_ := kernel_ready_ n; queue_size_ := queue_size_ n; tf_frame_ := tf_frame_ n;
     cl_file_path_ := cl_file_path_ n; camera_model_ := camera_model_ n;
     pcl_conversion_ := pcl_conversion_ n; sub_depth_ := sub_depth_ n;
     ros_log := ros_log n ++ [(l, msg)]; published := published n;
     shutdown_requested := shutdown_requested n |}.

Definition add_published (pc : PointCloud) (n : Nodelet) : Nodelet :=
  {| kernel_ready_ := kernel_ready_ n; queue_size_ := queue_size_ n; tf_frame_ := tf_frame_ n;
     cl_file_path_ := cl_file_path_ n; camera_model_ := camera_model_ n;
     pcl_conversion_ := pcl_conversion_ n; sub_depth_ := sub_depth_ n;
     ros_log := ros_log n; published := published n ++ [pc];
     shutdown_requested := shutdown_requested n |}.

Definition set_shutdown (n : Nodelet) : Nodelet :=
  {| kernel_ready_ := kernel_ready_ n; queue_size_ := queue_size_ n; tf_frame_ := tf_frame_ n;
     cl_file_path_ := cl_file_path_ n; camera_model_ := camera_model_ n;
     pcl_conversion_ := pcl_conversion_ n; sub_depth_ := sub_depth_ n;
     ros_log := ros_log n; published := published n;
     shutdown_requested := true |}.

(** *** Callback bodies: state passing with C++ exceptions *)

Module Cb.

Definition t (A : Type) : Type := Nodelet -> Nodelet * (Exception + A).

Definition ret {A} (a : A) : t A := fun n => (n, inr a).

Definition bind {A B} (m : t A) (k : A -> t B) : t B :=
  fun n =>
    match m n with
    | (n', inr a) => k a n'
    | (n', inl e) => (n', inl e)
    end.

Definition throw {A} (e : Exception) : t A := fun n => (n, inl e).

(** [try { body } catch (std::exception& e) { handler e }] *)
Definition try_catch {A} (body : t A) (handler : Exception -> t A) : t A :=
  fun n =>
    match body n with
    | (n', inl e) => handler e n'
    | (n', inr a) => (n', inr a)
    end.

Definition modify (f : Nodelet -> Nodelet) : t unit := fun n => (f n, inr tt).

Definition get {A} (f : Nodelet -> A) : t A := fun n => (n, inr (f n)).

Definition exec {A} (m : t A) (n : Nodelet) : Nodelet := fst (m n).

End Cb.

Notation "x <- m ;; k" := (Cb.bind m (fun x => k))
  (at level 100, m at next level, right associativity).
Notation "m ;; k" := (Cb.bind m (fun _ => k))
  (at level 100, right associativity).

(** *** Calls that leave the nodelet *)

Definition log (l : LogLevel) (msg : string) : Cb.t unit :=
  Cb.modify (add_log l msg).

Definition publish (pc : PointCloud) : Cb.t unit :=
  Cb.modify (add_published pc).

Definition ros_shutdown : Cb.t unit :=
  Cb.modify set_shutdown.

Definition record_call (c : EngineCall) (e : DepthImageToPCL) : DepthImageToPCL :=
  {| eng_md := eng_md e; eng_tf := eng_tf e; eng_prepared := eng_prepared e;
     eng_failed := eng_failed e; eng_calls := eng_calls e ++ [c] |}.

Definition store_md (md : MetaData) (e : DepthImageToPCL) : DepthImageToPCL :=
  {| eng_md := Some md; eng_tf := eng_tf e; eng_prepared := eng_prepared e;
     eng_failed := eng_failed e; eng_calls := eng_calls e |}.

Definition store_tf (tf : Transform) (e : DepthImageToPCL) : DepthImageToPCL :=
  {| eng_md := eng_md e; eng_tf := Some tf; eng_prepared := eng_prepared e;
     eng_failed := eng_failed e; eng_calls := eng_calls e |}.

Definition mark_prepared (e : DepthImageToPCL) : DepthImageToPCL :=
  {| eng_md := eng_md e; eng_tf := eng_tf e; eng_prepared := true;
     eng_failed := false; eng_calls := eng_calls e |}.

(** A failed engine is not usable until it is prepared again. *)
Definition mark_failed (e : DepthImageToPCL) : DepthImageToPCL :=
  {| eng_md := eng_md e; eng_tf := eng_tf e; eng_prepared := false;
     eng_failed := true; eng_calls := eng_calls e |}.

Definition on_engine (f : DepthImageToPCL -> DepthImageToPCL) : Cb.t unit :=
  Cb.modify (fun n => set_engine (f (pcl_conversion_ n)) n).

(** Modelled from the spec: an engine method that throws what the
    environment says; the engine goes to [Failed] when the exception is
    [fatal] for it (section 4.2: any exception during compilation or buffer
    allocation; during execution, one that tells the backend is unusable). *)
Definition engine_throws (fatal : Exception -> bool) (o : option Exception) : Cb.t unit :=
  match o with
  | Some e => (if fatal e then on_engine mark_failed else Cb.ret tt) ;; Cb.throw e
  | None => Cb.ret tt
  end.

Definition setMetaData (md : MetaData) : Cb.t unit :=
  on_engine (fun e => store_md md (record_call (SetMetaData md) e)).

Definition setTFData (tf : Transform) : Cb.t unit :=
  on_engine (fun e => store_tf tf (record_call (SetTFData tf) e)).

Definition initCloud : Cb.t unit :=
  on_engine (record_call InitCloud).

Definition init_CL (path : string) (env : Env) : Cb.t unit :=
  on_engine (record_call (InitCL path)) ;;
  engine_throws (fun _ => true) (init_CL_throws env).

Definition program_kernel (name : string) (env : Env) : Cb.t unit :=
  on_engine (record_call (ProgramKernel name)) ;;
  engine_throws (fun _ => true) (program_kernel_throws env).

Definition init_buffers (env : Env) : Cb.t unit :=
  on_engine (record_call InitBuffers) ;;
  engine_throws (fun _ => true) (init_buffers_throws env) ;;
  on_engine mark_prepared.

(** The cloud handed back by [convert_to_pcl], before [depthCb] fills in its
    header: a default-constructed [pcl::PointCloud] holding the points. *)
Definition cloud_of_points (pts : list PointXYZ) : PointCloud :=
  {| pc_stamp := 0; pc_frame_id := ""; pc_width := 0; pc_height := 0;
     pc_is_dense := true; pc_points := pts |}.

Definition not_prepared_error : Exception :=
  {| what := "projection requested before a successful preparation";
     backend_lost := false |}.

Definition size_mismatch_error : Exception :=
  {| what := "depth frame length differs from pixel_count";
     backend_lost := false |}.

(** Modelled from the spec: [DepthImageToPCL::convert_to_pcl] (absent from the
    sources). It fails when the backend does, the engine going to [Failed] if
    the backend is lost and staying as it is if the error is transient
    (section 4.2); it fails when the engine is not prepared (section 8: a
    setup/ordering error, never garbage output) and on [InputSizeMismatch];
    otherwise it returns the projection of the frame under the metadata and
    transform the engine holds. *)
Definition convert_to_pcl (depth_msg : ImageMsg) (env : Env) : Cb.t PointCloud :=
  on_engine (record_call ConvertToPcl) ;;
  engine_throws backend_lost (convert_to_pcl_throws env) ;;
  eng <- Cb.get pcl_conversion_ ;;
  match eng_prepared eng, eng_md eng, eng_tf eng with
  | true, Some md, Some tf =>
      match Engine.project md tf (img_data depth_msg) with
      | inr pts => Cb.ret (cloud_of_points pts)
      | inl Engine.InputSizeMismatch => Cb.throw size_mismatch_error
      end
  | _, _, _ => Cb.throw not_prepared_error
  end.

(** [cv_bridge::toCvCopy]: a decoded copy of the samples, or a
    [cv_bridge::Exception], the one exception the handler at line 79 is
    written for. An exception of another type thrown by the decoding is not
    caught there and is outside this model. *)
Definition toCvCopy (depth_msg : ImageMsg) (env : Env) : Cb.t (option (list Z)) :=
  match toCvCopy_throws env with
  | Some w => Cb.throw {| what := w; backend_lost := false |}
  | None => Cb.ret (Some (img_data depth_msg))
  end.

(** *** [PointCloudXYZNodelet::onInit] *)

Inductive ParamValue :=
| PInt (z : Z)
| PStr (s : string).

(** [NodeHandle::param]: the value on the parameter server when it is there
    with the right type, the default otherwise. *)
Definition param_int (params : gmap string ParamValue) (key : string) (default : Z) : Z :=
  match params !! key with
  | Some (PInt z) => z
  | _ => default
  end.

Definition param_string (params : gmap string ParamValue) (key : string) (default : string)
  : string :=
  match params !! key with
  | Some (PStr s) => s
  | _ => default
  end.

(** [package_path] is the result of [ros::package::getPath]. *)
Definition onInit (params : gmap string ParamValue) (package_path : string) : Nodelet :=
  {| kernel_ready_ := false;
     queue_size_ := param_int params "queue_size" 1;
     tf_frame_ := param_string params "tf_frame" "kinect2_link";
     cl_file_path_ :=
       param_string params "cl_file_path" (package_path +:+ "/ocl_kernel/ocl_kernel.cl");
     camera_model_ := None;
     pcl_conversion_ := new_DepthImageToPCL;
     sub_depth_ := false;
     ros_log := [(LDebug, "Initializing pointcloud XYZ nodelet...")];
     published := [];
     shutdown_requested := false |}.

(** *** [PointCloudXYZNodelet::connectCb] *)

Definition connectCb (num_subscribers : nat) (n : Nodelet) : Nodelet :=
  if decide (num_subscribers = 0%nat) then
    set_sub_depth false
      (add_log LInfo "Stopping conversion from depth image to XYZ pointcloud..." n)
  else if negb (sub_depth_ n) then
    set_sub_depth true
      (add_log LInfo "Running conversion from depth image to XYZ pointcloud..." n)
  else n.

(** *** [PointCloudXYZNodelet::depthCb] *)

Definition to_uint32 (z : Z) : Z := z mod uint32_max.

(** Lines 93-100. *)
Definition make_metadata (depth_msg : ImageMsg) : MetaData :=
  {| md_width := to_uint32 (img_width depth_msg);
     md_height := to_uint32 (img_height depth_msg);
     md_n_pixels := to_uint32 (to_uint32 (img_width depth_msg) * img_height depth_msg);
     md_depth_scaling := F32.lit_0_001;
     md_invalid_depth := 0;
     md_max_depth := F32.zero;
     md_NaN := F32.nan |}.

(** Lines 101-105. *)
Definition make_transform (info_msg : CameraInfoMsg) : Transform :=
  {| tf_cx := info_cx info_msg;
     tf_cy := info_cy info_msg;
     tf_fx := info_fx info_msg;
     tf_fy := info_fy info_msg |}.

(** Lines 90-121: the body of [if (!kernel_ready_)]. *)
Definition ocl_setup (depth_msg : ImageMsg) (info_msg : CameraInfoMsg) (env : Env)
  : Cb.t unit :=
  Cb.modify (set_kernel_ready true) ;;
  Cb.modify (set_camera_model info_msg) ;;
  setMetaData (make_metadata depth_msg) ;;
  setTFData (make_transform info_msg) ;;
  initCloud ;;
  Cb.try_catch
    (path <- Cb.get cl_file_path_ ;;
     init_CL path env ;;
     log LInfo ("Loading opencl kernel from path: " +:+ path) ;;
     program_kernel "depth_to_pcl" env ;;
     init_buffers env)
    (fun e =>
       log LError ("An error occured during OCL setup! " +:+ what e) ;;
       ros_shutdown).

(** Lines 127-132: the header fields written before publishing. *)
Definition stamp_cloud (depth_msg : ImageMsg) (frame : string) (pc : PointCloud)
  : PointCloud :=
  {| pc_is_dense := false;
     pc_height := img_height depth_msg;
     pc_width := img_width depth_msg;
     pc_frame_id := frame;
     pc_stamp := toNSec (img_stamp depth_msg) / 1000;
     pc_points := pc_points pc |}.

(** Lines 124-139. *)
Definition convert_and_publish (depth_msg : ImageMsg) (env : Env) : Cb.t unit :=
  Cb.try_catch
    (pc <- convert_to_pcl depth_msg env ;;
     frame <- Cb.get tf_frame_ ;;
     publish (stamp_cloud depth_msg frame pc))
    (fun e =>
       log LError ("An error occured during depth to pcl conversion! " +:+ what e)).

Definition depthCb_body (depth_msg : ImageMsg) (info_msg : CameraInfoMsg) (env : Env)
  : Cb.t unit :=
  cv_ptr <- Cb.try_catch (toCvCopy depth_msg env)
              (fun e => log LError ("cv_bridge exception: " +:+ what e) ;; Cb.ret None) ;;
  if haveOpenCL env then
    ready <- Cb.get kernel_ready_ ;;
    (if ready then Cb.ret tt else ocl_setup depth_msg info_msg env) ;;
    convert_and_publish depth_msg env
  else
    log LError "GPU has no OpenCL support!".

Definition depthCb (n : Nodelet) (depth_msg : ImageMsg) (info_msg : CameraInfoMsg)
  (env : Env) : Nodelet :=
  Cb.exec (depthCb_body depth_msg info_msg env) n.

(** *** The life of a nodelet *)

Inductive Event :=
| Connect (num_subscribers : nat)
| Frame (depth_msg : ImageMsg) (info_msg : CameraInfoMsg) (env : Env).

(** Frames only reach [depthCb] while [sub_depth_] is subscribed. *)
Definition step (n : Nodelet) (ev : Event) : Nodelet :=
  match ev with
  | Connect k => connectCb k n
  | Frame depth_msg info_msg env =>
      if sub_depth_ n then depthCb n depth_msg info_msg env else n
  end.

Definition run (n : Nodelet) (evs : list Event) : Nodelet :=
  fold_left step evs n.

(** Number of times the OpenCL setup was started. *)
Definition is_InitCL (c : EngineCall) : bool :=
  match c with InitCL _ => true | _ => false end.

Definition setup_attempts (n : Nodelet) : nat :=
  length (filter (fun c => is_InitCL c = true) (eng_calls (pcl_conversion_ n))).

(** ** Derived notions used in the statements *)

(** The same environment with another outcome for [cv_bridge::toCvCopy]. *)
Definition with_toCvCopy (o : option string) (env : Env) : Env :=
  {| haveOpenCL := haveOpenCL env;
     toCvCopy_throws := o;
     init_CL_throws := init_CL_throws env;
     program_kernel_throws := program_kernel_throws env;
     init_buffers_throws := init_buffers_throws env;
     convert_to_pcl_throws := convert_to_pcl_throws env |}.

(** The same environment with another outcome for [convert_to_pcl]. *)
Definition with_convert (o : option Exception) (env : Env) : Env :=
  {| haveOpenCL := haveOpenCL env;
     toCvCopy_throws := toCvCopy_throws env;
     init_CL_throws := init_CL_throws env;
     program_kernel_throws := program_kernel_throws env;
     init_buffers_throws := init_buffers_throws env;
     convert_to_pcl_throws := o |}.

(** The exception, if any, that leaves the [try] block of the setup. *)
Definition setup_exception (env : Env) : option Exception :=
  match init_CL_throws env with
  | Some e => Some e
  | None =>
      match program_kernel_throws env with
      | Some e => Some e
      | None => init_buffers_throws env
      end
  end.

(** The setup was started at most once, and not at all while
    [kernel_ready_] is false. *)
Definition setup_once (n : Nodelet) : Prop :=
  (setup_attempts n <= 1)%nat /\
  (kernel_ready_ n = false ->
   setup_attempts n = 0%nat /\ eng_prepared (pcl_conversion_ n) = false).

(** The header of a cloud published for the frame [depth_msg] by a nodelet
    configured with the label [frame]: lines 128-132. *)
Definition stamped_from (frame : string) (depth_msg : ImageMsg) (pc : PointCloud) : Prop :=
  pc_is_dense pc = false /\
  pc_height pc = img_height depth_msg /\
  pc_width pc = img_width depth_msg /\
  pc_frame_id pc = frame /\
  pc_stamp pc = toNSec (img_stamp depth_msg) / 1000 /\
  (0 <= sec (img_stamp depth_msg) < uint32_max ->
   0 <= nsec (img_stamp depth_msg) < uint32_max ->
   pc_stamp pc =
     sec (img_stamp depth_msg) * 1000000 + nsec (img_stamp depth_msg) / 1000).

(** ** Sample inputs

    The scenario of section 8 (a 2x1 frame, principal point (1, 0), focal
    lengths 500), and variations on it. *)

Definition md0 : MetaData :=
  {| md_width := 2; md_height := 1; md_n_pixels := 2;
     md_depth_scaling := F32.lit_0_001; md_invalid_depth := 0;
     md_max_depth := F32.zero; md_NaN := F32.nan |}.

Definition tf0 : Transform :=
  {| tf_cx := F32.of_Z 1; tf_cy := F32.of_Z 0;
     tf_fx := F32.of_Z 500; tf_fy := F32.of_Z 500 |}.

Definition info0 : CameraInfoMsg :=
  {| info_cx := F32.of_Z 1; info_cy := F32.of_Z 0;
     info_fx := F32.of_Z 500; info_fy := F32.of_Z 500 |}.

Definition msg0 : ImageMsg :=
  {| img_stamp := {| sec := 12; nsec := 345678 |}; img_frame_id := "kinect2_depth";
     img_height := 1; img_width := 2; img_encoding := "16UC1";
     img_data := [0; 2000] |}.

Definition env_ok : Env :=
  {| haveOpenCL := true; toCvCopy_throws := None; init_CL_throws := None;
     program_kernel_throws := None; init_buffers_throws := None;
     convert_to_pcl_throws := None |}.

(** A nodelet with default parameters and one subscriber. *)
Definition nodelet0 : Nodelet := connectCb 1 (onInit ∅ "/opt/pses").

(** The same metadata with a clamp at 1.5 m. *)
Definition md_clamp : MetaData :=
  {| md_width := 2; md_height := 1; md_n_pixels := 2;
     md_depth_scaling := F32.lit_0_001; md_invalid_depth := 0;
     md_max_depth := F32.div (F32.of_Z 3) (F32.of_Z 2); md_NaN := F32.nan |}.

(** Intrinsics of a 512x424 depth camera. *)
Definition tf_wide : Transform :=
  {| tf_cx := F32.div (F32.of_Z 511) (F32.of_Z 2); tf_cy := F32.of_Z 212;
     tf_fx := F32.of_Z 365; tf_fy := F32.of_Z 365 |}.

(** Expected output of the scenario. *)
Definition scenario_points : list PointXYZ :=
  [ {| pt_x := F32.nan; pt_y := F32.nan; pt_z := F32.nan |};
    {| pt_x := F32.zero; pt_y := F32.zero; pt_z := F32.two |} ].

(** Another calibration, and a frame of other dimensions. *)
Definition info1 : CameraInfoMsg :=
  {| info_cx := F32.of_Z 0; info_cy := F32.of_Z 0;
     info_fx := F32.of_Z 250; info_fy := F32.of_Z 250 |}.

Definition msg_2x2 : ImageMsg :=
  {| img_stamp := {| sec := 13; nsec := 0 |}; img_frame_id := "kinect2_depth";
     img_height := 2; img_width := 2; img_encoding := "16UC1";
     img_data := [0; 2000; 1000; 500] |}.

(** Environments: no OpenCL; a kernel file that cannot be loaded. *)
Definition env_no_opencl : Env :=
  {| haveOpenCL := false; toCvCopy_throws := None; init_CL_throws := None;
     program_kernel_throws := None; init_buffers_throws := None;
     convert_to_pcl_throws := None |}.

Definition env_setup_fails : Env :=
  {| haveOpenCL := true; toCvCopy_throws := None;
     init_CL_throws := Some {| what := "kernel source not found"; backend_lost := false |};
     program_kernel_throws := None; init_buffers_throws := None;
     convert_to_pcl_throws := None |}.

(** Two conversion failures with the same text, one fatal, one transient. *)
Definition device_lost : Exception :=
  {| what := "OpenCL device error"; backend_lost := true |}.

Definition device_hiccup : Exception :=
  {| what := "OpenCL device error"; backend_lost := false |}.

(** The nodelet after a first frame has prepared it. *)
Definition nodelet1 : Nodelet := depthCb nodelet0 msg0 info0 env_ok.

Definition first_frame_done : Nodelet :=
  run (onInit ∅ "/opt/pses") [Connect 1; Frame msg0 info0 env_ok].

(** ** Notions used for the further properties of the callbacks *)

Definition is_Frame (ev : Event) : bool :=
  match ev with
  | Frame _ _ _ => true
  | Connect _ => false
  end.

(** The calls the setup block (lines 106-115) makes on the engine: the three
    setters, then [init_CL], [program_kernel] and [init_buffers] up to the
    first one that throws. *)
Definition setup_calls (path : string) (depth_msg : ImageMsg) (info_msg : CameraInfoMsg)
  (env : Env) : list EngineCall :=
  [SetMetaData (make_metadata depth_msg); SetTFData (make_transform info_msg);
   InitCloud; InitCL path]
  ++ match init_CL_throws env with
     | Some _ => []
     | None =>
         ProgramKernel "depth_to_pcl"
         :: match program_kernel_throws env with
            | Some _ => []
            | None => [InitBuffers]
            end
     end.

(** Nanoseconds held by a [ros::Time], before any 64-bit wrap. *)
Definition total_nsec (t : Time) : Z := sec t * 1000000000 + nsec t.

(** Both fields of a [ros::Time] are [uint32]. *)
Definition is_uint32_time (t : Time) : bool :=
  is_uint32 (sec t) && is_uint32 (nsec t).

(** A call on the engine that names the configured kernel file, or the
    kernel [depth_to_pcl], or no name at all. *)
Definition call_uses (path : string) (c : EngineCall) : Prop :=
  match c with
  | InitCL p => p = path
  | ProgramKernel k => k = "depth_to_pcl"
  | _ => True
  end.

(** A frame of 65536 x 65536 pixels. *)
Definition msg_huge : ImageMsg :=
  {| img_stamp := {| sec := 14; nsec := 0 |}; img_frame_id := "kinect2_depth";
     img_height := 65536; img_width := 65536; img_encoding := "16UC1";
     img_data := [] |}.

(** An environment in which [program_kernel] throws. *)
Definition env_kernel_fails : Env :=
  {| haveOpenCL := true; toCvCopy_throws := None; init_CL_throws := None;
     program_kernel_throws := Some {| what := "no kernel depth_to_pcl"; backend_lost := false |};
     init_buffers_throws := None; convert_to_pcl_throws := None |}.

(** A frame of 3 x 2 pixels, and the frame of the scenario at a later time. *)
Definition md_3x2 : MetaData :=
  {| md_width := 3; md_height := 2; md_n_pixels := 6;
     md_depth_scaling := F32.lit_0_001; md_invalid_depth := 0;
     md_max_depth := F32.zero; md_NaN := F32.nan |}.

Definition frame_3x2 : list Z := [1000; 0; 1500; 2000; 2500; 3000].

Definition msg0_later : ImageMsg :=
  {| img_stamp := {| sec := 99; nsec := 5000 |}; img_frame_id := "kinect2_depth";
     img_height := 1; img_width := 2; img_encoding := "16UC1";
     img_data := [0; 2000] |}.

(** Focal lengths of [2^-149], the least positive binary32 number. *)
Definition tf_tiny : Transform :=
  {| tf_cx := F32.of_Z 0; tf_cy := F32.of_Z 0;
     tf_fx := S754_finite false 1 (-149); tf_fy := S754_finite false 1 (-149) |}.

(** The output of [project] on the 3 x 2 frame. *)
Definition out_3x2 : list PointXYZ :=
  Eval vm_compute in
    match Engine.project md_3x2 tf0 frame_3x2 with
    | inr out => out
    | inl _ => []
    end.

(** ** The projection, pixel by pixel *)

Section Projection.

Variables (md : MetaData) (tf : Transform).

Lemma project_inr (frame : list Z) (out : list PointXYZ) :
  Engine.project md tf frame = inr out ->
  Z.of_nat (length frame) = md_n_pixels md /\
  out = imap (fun i d =>
                Engine.project_pixel md tf (Engine.row_of md i) (Engine.col_of md i) d)
             frame.
Proof.
  unfold Engine.project. case_decide; [|discriminate].
  intros [= <-]. split; [assumption|reflexivity].
Qed.

Lemma project_lookup (frame : list Z) (out : list PointXYZ) (i : nat) (d : Z) :
  Engine.project md tf frame = inr out ->
  frame !! i = Some d ->
  out !! i =
    Some (Engine.project_pixel md tf (Engine.row_of md i) (Engine.col_of md i) d).
Proof.
  intros [_ ->]%project_inr Hd.
  rewrite list_lookup_imap, Hd. reflexivity.
Qed.

Lemma project_length (frame : list Z) (out : list PointXYZ) :
  Engine.project md tf frame = inr out -> length out = length frame.
Proof.
  intros [_ ->]%project_inr. apply length_imap.
Qed.

Lemma project_pixel_sentinel (r c : Z) :
  Engine.project_pixel md tf r c (md_invalid_depth md) = Engine.invalid_marker md.
Proof.
  unfold Engine.project_pixel, Engine.is_sentinel.
  rewrite Z.eqb_refl. reflexivity.
Qed.

Lemma project_pixel_clamped (r c d : Z) :
  Engine.is_clamped md d = true ->
  Engine.project_pixel md tf r c d = Engine.invalid_marker md.
Proof.
  unfold Engine.project_pixel. intros ->.
  rewrite orb_true_r. reflexivity.
Qed.

Lemma project_pixel_projected (r c d : Z) :
  d <> md_invalid_depth md ->
  Engine.is_clamped md d = false ->
  Engine.project_pixel md tf r c d = Engine.projected md tf r c d.
Proof.
  unfold Engine.project_pixel, Engine.is_sentinel. intros Hd ->.
  apply Z.eqb_neq in Hd. rewrite Hd. reflexivity.
Qed.

(** A clamp of [+0] or [-0] never fires: [0 < max_depth] is false. *)
Lemma is_clamped_zero (s : bool) (d : Z) :
  md_max_depth md = S754_zero s -> Engine.is_clamped md d = false.
Proof.
  unfold Engine.is_clamped. intros ->. reflexivity.
Qed.

End Projection.

(** The metadata [depthCb] builds never clamp and use [0] and a quiet NaN as
    sentinel and marker. *)
Lemma make_metadata_constants (depth_msg : ImageMsg) :
  md_depth_scaling (make_metadata depth_msg) = F32.lit_0_001 /\
  md_invalid_depth (make_metadata depth_msg) = 0 /\
  md_max_depth (make_metadata depth_msg) = F32.zero /\
  md_NaN (make_metadata depth_msg) = F32.nan.
Proof. repeat split. Qed.

(** They satisfy the invariants of the data model as soon as the frame has a
    positive width. *)
Lemma make_metadata_wf (depth_msg : ImageMsg) :
  1 <= to_uint32 (img_width depth_msg) -> wf_metadata (make_metadata depth_msg) = true.
Proof.
  intros Hw. unfold wf_metadata, make_metadata; cbn [md_width md_n_pixels md_depth_scaling].
  apply Z.leb_le in Hw. rewrite Hw. cbn [andb].
  rewrite andb_true_r. apply Z.leb_le.
  pose proof (Z.mod_pos_bound
                (to_uint32 (img_width depth_msg) * img_height depth_msg) uint32_max
                ltac:(unfold uint32_max; lia)).
  unfold to_uint32 at 1. lia.
Qed.

(** [0.001f] is the binary32 value nearest to one thousandth. *)
Example lit_0_001_is_rounded_quotient :
  F32.div (F32.of_Z 1) (F32.of_Z 1000) = F32.lit_0_001.
Proof. reflexivity. Qed.

(** Scenario of section 8: with a clamp at 1.5 m, a sample of 2000 (2.0 m) is
    marked invalid. *)
Example clamp_scenario :
  let md := {| md_width := 1; md_height := 1; md_n_pixels := 1;
               md_depth_scaling := F32.lit_0_001; md_invalid_depth := 0;
               md_max_depth := F32.div (F32.of_Z 3) (F32.of_Z 2);
               md_NaN := F32.nan |} in
  Engine.project md tf0 [2000] = inr [Engine.invalid_marker md].
Proof. reflexivity. Qed.

(** In a row-major frame of positive width, the pixel at row [r], column [c]
    is the one at index [r * width + c]. *)
Lemma row_col_of_index (md : MetaData) (r c : Z) :
  0 <= r -> 0 <= c < md_width md ->
  Engine.row_of md (Z.to_nat (r * md_width md + c)) = r /\
  Engine.col_of md (Z.to_nat (r * md_width md + c)) = c.
Proof.
  intros Hr Hc. unfold Engine.row_of, Engine.col_of.
  rewrite Z2Nat.id by nia. split.
  - rewrite Z.div_add_l by lia. rewrite Z.div_small by lia. lia.
  - rewrite Z.add_comm, Z.mod_add by lia. apply Z.mod_small. lia.
Qed.

(** C1: in a row-major frame, the pixel at row [r], column [c] (index
    [r * width + c]) whose sample [d] is not the sentinel and is not clamped
    (not both [max_depth > 0] and [d * depth_scaling > max_depth]) is
    projected to [z = d * depth_scaling], [x = (c - cx) * z / fx],
    [y = (r - cy) * z / fy]; and the frame [0, 2000] under the metadata and
    transform of the scenario (both through [project] and through a whole run
    of [depthCb]) gives the invalid marker followed by the point
    (0, 0, 2.0). *)
Theorem project_valid_pixel_formula
  (md : MetaData) (tf : Transform) (frame : list Z) (out : list PointXYZ)
  (r c d : Z) :
  Engine.project md tf frame = inr out ->
  0 <= r -> 0 <= c < md_width md ->
  frame !! Z.to_nat (r * md_width md + c) = Some d ->
  d <> md_invalid_depth md ->
  F32.ltb F32.zero (md_max_depth md)
  && F32.ltb (md_max_depth md) (F32.mul (F32.of_Z d) (md_depth_scaling md)) = false ->
  (let z := F32.mul (F32.of_Z d) (md_depth_scaling md) in
   out !! Z.to_nat (r * md_width md + c) =
     Some {| pt_x := F32.div (F32.mul (F32.sub (F32.of_Z c) (tf_cx tf)) z) (tf_fx tf);
             pt_y := F32.div (F32.mul (F32.sub (F32.of_Z r) (tf_cy tf)) z) (tf_fy tf);
             pt_z := z |}) /\
  Engine.project md0 tf0 [0; 2000] =
    inr [ {| pt_x := F32.nan; pt_y := F32.nan; pt_z := F32.nan |};
          {| pt_x := F32.zero; pt_y := F32.zero; pt_z := F32.two |} ] /\
  pc_points <$> published (depthCb nodelet0 msg0 info0 env_ok) =
    [ [ {| pt_x := F32.nan; pt_y := F32.nan; pt_z := F32.nan |};
        {| pt_x := F32.zero; pt_y := F32.zero; pt_z := F32.two |} ] ].
Proof.
  intros Hout Hr Hc Hd Hsent Hclamp. split; [|split].
  - cbv zeta. rewrite (project_lookup md tf frame out _ d Hout Hd).
    destruct (row_col_of_index md r c Hr Hc) as [-> ->].
    rewrite project_pixel_projected by assumption. reflexivity.
  - vm_compute. reflexivity.
  - vm_compute. reflexivity.
Qed.

Lemma project_valid_pixel_formula_witness :
  Engine.project md_3x2 tf0 frame_3x2 = inr out_3x2 /\
  out_3x2 !! 5%nat =
    Some {| pt_x := F32.div (F32.mul (F32.sub (F32.of_Z 2) (F32.of_Z 1))
                               (F32.mul (F32.of_Z 3000) F32.lit_0_001))
                      (F32.of_Z 500);
            pt_y := F32.div (F32.mul (F32.sub (F32.of_Z 1) (F32.of_Z 0))
                               (F32.mul (F32.of_Z 3000) F32.lit_0_001))
                      (F32.of_Z 500);
            pt_z := F32.mul (F32.of_Z 3000) F32.lit_0_001 |}.
Proof.
  split; [vm_compute; reflexivity|].
  refine (proj1 (project_valid_pixel_formula md_3x2 tf0 frame_3x2 out_3x2 1 2 3000
                   _ _ _ _ _ _)).
  - vm_compute. reflexivity.
  - lia.
  - simpl. lia.
  - reflexivity.
  - simpl. lia.
  - reflexivity.
Defined.

(** C2: a pixel whose sample equals the invalid-depth sentinel is output as
    the invalid marker, whatever its index, row or column; with the metadata
    built by [depthCb] the sentinel is 0 and the marker is (NaN, NaN, NaN). *)
Theorem project_sentinel_is_invalid
  (md : MetaData) (tf : Transform) (frame : list Z) (out : list PointXYZ)
  (i : nat) (d : Z) :
  Engine.project md tf frame = inr out ->
  frame !! i = Some d ->
  d = md_invalid_depth md ->
  out !! i = Some (Engine.invalid_marker md) /\
  (forall r c, Engine.project_pixel md tf r c d = Engine.invalid_marker md) /\
  (forall depth_msg r c,
     Engine.project_pixel (make_metadata depth_msg) tf r c 0 =
       {| pt_x := F32.nan; pt_y := F32.nan; pt_z := F32.nan |}).
Proof.
  intros Hout Hd ->. split; [|split].
  - rewrite (project_lookup md tf frame out i _ Hout Hd).
    rewrite project_pixel_sentinel. reflexivity.
  - intros r c. apply project_pixel_sentinel.
  - intros depth_msg r c. reflexivity.
Qed.

Lemma project_sentinel_is_invalid_witness :
  [Engine.invalid_marker md0; Engine.projected md0 tf0 0 1 2000] !! 0%nat =
    Some (Engine.invalid_marker md0).
Proof.
  refine (proj1 (project_sentinel_is_invalid md0 tf0 [0; 2000] _ 0%nat 0 _ _ _)).
  - vm_compute. reflexivity.
  - reflexivity.
  - reflexivity.
Defined.

(** C3: when [max_depth > 0] and [d * depth_scaling > max_depth] the output
    point is the invalid marker; when [max_depth] is zero no clamp is applied
    and every sample other than the sentinel is projected. *)
Theorem project_max_depth_clamp
  (md : MetaData) (tf : Transform) (frame : list Z) (out : list PointXYZ)
  (i : nat) (d : Z) :
  Engine.project md tf frame = inr out ->
  frame !! i = Some d ->
  (F32.ltb F32.zero (md_max_depth md) = true ->
   F32.ltb (md_max_depth md) (F32.mul (F32.of_Z d) (md_depth_scaling md)) = true ->
   out !! i = Some (Engine.invalid_marker md)) /\
  (forall s, md_max_depth md = S754_zero s ->
   d <> md_invalid_depth md ->
   out !! i =
     Some (Engine.projected md tf (Engine.row_of md i) (Engine.col_of md i) d)).
Proof.
  intros Hout Hd. rewrite (project_lookup md tf frame out i d Hout Hd). split.
  - intros H0 H1. rewrite project_pixel_clamped; [reflexivity|].
    unfold Engine.is_clamped. rewrite H0, H1. reflexivity.
  - intros s Hs Hne. rewrite project_pixel_projected; [reflexivity|assumption|].
    eapply is_clamped_zero, Hs.
Qed.

Lemma project_max_depth_clamp_witness :
  [Engine.invalid_marker md_clamp; Engine.invalid_marker md_clamp] !! 1%nat =
    Some (Engine.invalid_marker md_clamp) /\
  [Engine.invalid_marker md0; Engine.projected md0 tf0 0 1 2000] !! 1%nat =
    Some (Engine.projected md0 tf0 0 1 2000).
Proof.
  split.
  - refine (proj1 (project_max_depth_clamp md_clamp tf0 [0; 2000] _ 1%nat 2000 _ _) _ _).
    + vm_compute. reflexivity.
    + reflexivity.
    + reflexivity.
    + vm_compute. reflexivity.
  - refine (proj2 (project_max_depth_clamp md0 tf0 [0; 2000] _ 1%nat 2000 _ _) false _ _).
    + vm_compute. reflexivity.
    + reflexivity.
    + reflexivity.
    + simpl. lia.
Defined.

(** ** Magnitudes of binary32 results

    Enough of the theory of rounding to show that the operations of the
    projection do not overflow: a bound on the number of digits of a mantissa
    plus its exponent is followed through [binary_round_aux]. *)

Lemma digits_upper (p : positive) : Zpos p < 2 ^ Zpos (digits2_pos p).
Proof.
  induction p as [p IH|p IH|]; simpl digits2_pos;
    rewrite ?Pos2Z.inj_succ, ?Z.pow_succ_r by lia; lia.
Qed.

Lemma digits_lower (p : positive) : 2 ^ (Zpos (digits2_pos p) - 1) <= Zpos p.
Proof.
  induction p as [p IH|p IH|]; simpl digits2_pos; [| |simpl; lia];
    rewrite Pos2Z.inj_succ;
    replace (Z.succ (Zpos (digits2_pos p)) - 1) with (Z.succ (Zpos (digits2_pos p) - 1)) by lia;
    rewrite Z.pow_succ_r by lia; lia.
Qed.

Lemma digits_le_of_lt (p : positive) (k : Z) :
  Zpos p < 2 ^ k -> Zpos (digits2_pos p) <= k.
Proof.
  intros Hlt.
  destruct (Z_lt_le_dec k (Zpos (digits2_pos p))) as [Hk|Hk]; [|exact Hk].
  exfalso.
  destruct (Z_lt_le_dec k 0) as [Hneg|Hpos].
  - rewrite Z.pow_neg_r in Hlt by assumption. lia.
  - pose proof (digits_lower p) as Hlow.
    assert (2 ^ k <= 2 ^ (Zpos (digits2_pos p) - 1)) by (apply Z.pow_le_mono_r; lia).
    lia.
Qed.

Lemma Zdigits2_nonneg (m : Z) : 0 <= Zdigits2 m.
Proof. destruct m; simpl; lia. Qed.

Lemma Zdigits2_le_of_lt (m k : Z) : 0 <= k -> Z.abs m < 2 ^ k -> Zdigits2 m <= k.
Proof.
  intros Hk Hm. destruct m as [|p|p]; simpl in *; [lia| |]; apply digits_le_of_lt; lia.
Qed.

Lemma Zdigits2_upper (m : Z) : Z.abs m < 2 ^ Zdigits2 m.
Proof.
  destruct m as [|p|p]; simpl; [lia| |]; apply digits_upper.
Qed.

Lemma Zdigits2_succ (m : Z) : 0 <= m -> Zdigits2 (m + 1) <= Zdigits2 m + 1.
Proof.
  intros Hm. apply Zdigits2_le_of_lt.
  - pose proof (Zdigits2_nonneg m). lia.
  - pose proof (Zdigits2_upper m) as Hu.
    rewrite Z.pow_add_r by (pose proof (Zdigits2_nonneg m); lia).
    rewrite Z.abs_eq in * by lia. lia.
Qed.

Lemma digits_mul (p q : positive) :
  Zpos (digits2_pos (p * q)) <= Zpos (digits2_pos p) + Zpos (digits2_pos q).
Proof.
  apply digits_le_of_lt. rewrite Z.pow_add_r by lia.
  pose proof (digits_upper p). pose proof (digits_upper q).
  rewrite Pos2Z.inj_mul. nia.
Qed.

(** Shifting a mantissa to the right drops one digit per step. *)
Lemma iter_pos_nat {A} (f : A -> A) (p : positive) (x : A) :
  SpecFloat.iter_pos f p x = Nat.iter (Pos.to_nat p) f x.
Proof.
  revert x. induction p as [p IH|p IH|]; intros x; simpl SpecFloat.iter_pos.
  - rewrite !IH, Pos2Nat.inj_xI.
    replace (S (2 * Pos.to_nat p)) with (Pos.to_nat p + (Pos.to_nat p + 1))%nat by lia.
    rewrite !Nat.iter_add. reflexivity.
  - rewrite !IH, Pos2Nat.inj_xO.
    replace (2 * Pos.to_nat p)%nat with (Pos.to_nat p + Pos.to_nat p)%nat by lia.
    rewrite Nat.iter_add. reflexivity.
  - reflexivity.
Qed.

Lemma shr_1_digits (mrs : shr_record) :
  0 <= shr_m mrs ->
  0 <= shr_m (shr_1 mrs) /\
  Zdigits2 (shr_m (shr_1 mrs)) = Z.max 0 (Zdigits2 (shr_m mrs) - 1).
Proof.
  destruct mrs as [m r s]. cbn [shr_m]. intros Hm.
  destruct m as [|[p|p|]|p]; cbn [shr_1 shr_m Zdigits2 digits2_pos];
    rewrite ?Pos2Z.inj_succ; lia.
Qed.

Lemma shr_iter_digits (n : nat) (mrs : shr_record) :
  0 <= shr_m mrs ->
  0 <= shr_m (Nat.iter n shr_1 mrs) /\
  Zdigits2 (shr_m (Nat.iter n shr_1 mrs)) = Z.max 0 (Zdigits2 (shr_m mrs) - Z.of_nat n).
Proof.
  intros Hm. induction n as [|n [IH0 IH]].
  - simpl. pose proof (Zdigits2_nonneg (shr_m mrs)). lia.
  - rewrite Nat.iter_succ.
    destruct (shr_1_digits _ IH0) as [H0 H1]. split; [exact H0|].
    rewrite H1, IH. lia.
Qed.

Lemma fexp_eq (e : Z) : fexp F32.prec F32.emax e = Z.max (e - 24) (-149).
Proof. reflexivity. Qed.

Lemma shr_spec (mrs : shr_record) (e n : Z) :
  0 <= shr_m mrs ->
  0 <= shr_m (fst (shr mrs e n)) /\
  snd (shr mrs e n) = e + Z.max 0 n /\
  Zdigits2 (shr_m (fst (shr mrs e n))) = Z.max 0 (Zdigits2 (shr_m mrs) - Z.max 0 n).
Proof.
  intros Hm. pose proof (Zdigits2_nonneg (shr_m mrs)).
  destruct n as [|p|p]; cbn [shr fst snd].
  - repeat split; lia.
  - rewrite iter_pos_nat.
    destruct (shr_iter_digits (Pos.to_nat p) mrs Hm) as [H0 H1].
    rewrite H1, positive_nat_Z. repeat split; lia.
  - repeat split; lia.
Qed.

Lemma shr_record_of_loc_m (m : Z) (l : location) : shr_m (shr_record_of_loc m l) = m.
Proof. destruct l as [|[]]; reflexivity. Qed.

Lemma shr_fexp_spec (m e : Z) (l : location) :
  0 <= m ->
  0 <= shr_m (fst (shr_fexp F32.prec F32.emax m e l)) /\
  snd (shr_fexp F32.prec F32.emax m e l) = Z.max e (fexp F32.prec F32.emax (Zdigits2 m + e)) /\
  Zdigits2 (shr_m (fst (shr_fexp F32.prec F32.emax m e l))) + snd (shr_fexp F32.prec F32.emax m e l)
    <= Z.max (snd (shr_fexp F32.prec F32.emax m e l)) (Zdigits2 m + e).
Proof.
  intros Hm. unfold shr_fexp.
  destruct (shr_spec (shr_record_of_loc m l) e
              (fexp F32.prec F32.emax (Zdigits2 m + e) - e)) as (H0 & H1 & H2).
  - rewrite shr_record_of_loc_m. exact Hm.
  - rewrite shr_record_of_loc_m in H2. rewrite H1, H2.
    repeat split; [exact H0|lia|lia].
Qed.

Lemma round_nearest_even_bounds (m : Z) (l : location) :
  0 <= m -> m <= round_nearest_even m l <= m + 1.
Proof.
  intros Hm. destruct l as [|[]]; cbn [round_nearest_even]; try lia.
  destruct (Z.even m); lia.
Qed.

Lemma Zdigits2_round (m : Z) (l : location) :
  0 <= m -> Zdigits2 (round_nearest_even m l) <= Zdigits2 m + 1.
Proof.
  intros Hm. pose proof (round_nearest_even_bounds m l Hm) as Hb.
  assert (Hc : round_nearest_even m l = m \/ round_nearest_even m l = m + 1) by lia.
  destruct Hc as [-> | ->]; [lia|apply Zdigits2_succ, Hm].
Qed.

Lemma binary_round_aux_fits (s : bool) (m e : Z) (l : location) (k : Z) :
  0 <= m -> e <= F32.emax - F32.prec -> Zdigits2 m + e + 1 <= k -> -125 <= k <= F32.emax ->
  F32.fits k (binary_round_aux F32.prec F32.emax s m e l).
Proof.
  intros Hm He Hk Hrange. unfold binary_round_aux.
  pose proof (Zdigits2_nonneg m) as Hd.
  destruct (shr_fexp_spec m e l Hm) as (H0 & H1 & H2).
  destruct (shr_fexp F32.prec F32.emax m e l) as [mrs' e']. cbn [fst snd] in *.
  pose proof (round_nearest_even_bounds (shr_m mrs') (loc_of_shr_record mrs') H0) as Hb.
  pose proof (Zdigits2_round (shr_m mrs') (loc_of_shr_record mrs') H0) as Hr.
  set (m1 := round_nearest_even (shr_m mrs') (loc_of_shr_record mrs')) in *.
  destruct (shr_fexp_spec m1 e' loc_Exact ltac:(lia)) as (G0 & G1 & G2).
  destruct (shr_fexp F32.prec F32.emax m1 e' loc_Exact) as [mrs'' e'']. cbn [fst snd] in *.
  rewrite fexp_eq in *. unfold F32.emax, F32.prec in *.
  destruct (shr_m mrs'') as [|p|p] eqn:Hp; cbn [F32.fits Zdigits2] in *.
  - exact I.
  - replace (e'' <=? 128 - 24) with true by (symmetry; apply Z.leb_le; lia).
    cbn [F32.fits]. unfold F32.emax, F32.prec. lia.
  - lia.
Qed.

Lemma digits_iter_xO (p d : positive) :
  Zpos (digits2_pos (Pos.iter xO p d)) = Zpos (digits2_pos p) + Zpos d.
Proof.
  induction d as [|d IH] using Pos.peano_ind.
  - cbn [Pos.iter digits2_pos]. rewrite Pos2Z.inj_succ. lia.
  - rewrite Pos.iter_succ. cbn [digits2_pos].
    rewrite !Pos2Z.inj_succ, IH. lia.
Qed.

Lemma shl_align_spec (mx : positive) (ex ex' : Z) :
  Zpos (digits2_pos (fst (shl_align mx ex ex'))) + snd (shl_align mx ex ex')
    = Zpos (digits2_pos mx) + ex /\
  snd (shl_align mx ex ex') = Z.min ex ex'.
Proof.
  unfold shl_align. destruct (ex' - ex) as [|d|d] eqn:Hd; cbn [fst snd].
  - lia.
  - lia.
  - rewrite digits_iter_xO. lia.
Qed.

Lemma binary_round_fits (s : bool) (mx : positive) (ex k : Z) :
  ex <= F32.emax - F32.prec -> Zpos (digits2_pos mx) + ex + 1 <= k -> -125 <= k <= F32.emax ->
  F32.fits k (binary_round F32.prec F32.emax s mx ex).
Proof.
  intros He Hk Hrange. unfold binary_round.
  destruct (shl_align_spec mx ex (fexp F32.prec F32.emax (Zpos (digits2_pos mx) + ex)))
    as [H1 H2].
  destruct (shl_align mx ex (fexp F32.prec F32.emax (Zpos (digits2_pos mx) + ex))) as [mz ez].
  cbn [fst snd] in *.
  apply binary_round_aux_fits; cbn [Zdigits2]; lia.
Qed.

Lemma binary_normalize_fits (m e : Z) (sz : bool) (k : Z) :
  e <= F32.emax - F32.prec -> Zdigits2 m + e + 1 <= k -> -125 <= k <= F32.emax ->
  F32.fits k (binary_normalize F32.prec F32.emax m e sz).
Proof.
  intros He Hk Hrange.
  destruct m as [|p|p]; cbn [binary_normalize Zdigits2] in *.
  - exact I.
  - apply binary_round_fits; assumption.
  - apply binary_round_fits; assumption.
Qed.

Lemma fits_mono (k k' : Z) (x : spec_float) : k <= k' -> F32.fits k x -> F32.fits k' x.
Proof. destruct x; cbn [F32.fits]; intros; lia || assumption. Qed.

Lemma SFmul_fits (ka kb k : Z) (a b : spec_float) :
  F32.fits ka a -> F32.fits kb b -> ka + kb + 1 <= k -> -125 <= k <= F32.emax - F32.prec + 3 ->
  F32.fits k (SFmul F32.prec F32.emax a b).
Proof.
  intros Ha Hb Hk Hrange.
  destruct a as [sa|sa| |sa ma ea], b as [sb|sb| |sb mb eb];
    cbn [F32.fits SFmul] in *; try exact I; try contradiction.
  pose proof (digits_mul ma mb).
  assert (0 < Zpos (digits2_pos ma)) by lia.
  assert (0 < Zpos (digits2_pos mb)) by lia.
  unfold F32.emax, F32.prec in *.
  apply binary_round_aux_fits; cbn [Zdigits2]; unfold F32.emax, F32.prec; lia.
Qed.

Lemma pow2_sum_lt (a b M : Z) (x y : Z) :
  0 <= a <= M -> 0 <= b <= M -> 0 <= x < 2 ^ a -> 0 <= y < 2 ^ b -> x + y < 2 ^ (M + 1).
Proof.
  intros Ha Hb Hx Hy.
  assert (2 ^ a <= 2 ^ M) by (apply Z.pow_le_mono_r; lia).
  assert (2 ^ b <= 2 ^ M) by (apply Z.pow_le_mono_r; lia).
  replace (M + 1) with (Z.succ M) by lia.
  rewrite Z.pow_succ_r by lia. lia.
Qed.

Lemma SFsub_fits (ka kb k : Z) (a b : spec_float) :
  F32.fits ka a -> F32.fits kb b -> Z.max ka kb + 2 <= k -> -125 <= k <= F32.emax ->
  F32.fits k (SFsub F32.prec F32.emax a b).
Proof.
  intros Ha Hb Hk Hrange.
  destruct a as [sa|sa| |sa ma ea], b as [sb|sb| |sb mb eb];
    cbn [F32.fits SFsub] in *; try exact I; try contradiction.
  - destruct sa, sb; exact I.
  - lia.
  - lia.
  - destruct (shl_align_spec ma ea (Z.min ea eb)) as [A1 A2].
    destruct (shl_align_spec mb eb (Z.min ea eb)) as [B1 B2].
    destruct (shl_align ma ea (Z.min ea eb)) as [ma' ea'].
    destruct (shl_align mb eb (Z.min ea eb)) as [mb' eb'].
    cbn [fst snd] in *.
    pose proof (digits_upper ma') as Ua. pose proof (digits_upper mb') as Ub.
    set (M := Z.max (Zpos (digits2_pos ma')) (Zpos (digits2_pos mb'))).
    assert (HM : Zpos ma' + Zpos mb' < 2 ^ (M + 1)).
    { apply (pow2_sum_lt (Zpos (digits2_pos ma')) (Zpos (digits2_pos mb'))); lia. }
    assert (Hd : Zdigits2 (cond_Zopp sa (Zpos ma') - cond_Zopp sb (Zpos mb')) <= M + 1).
    { apply Zdigits2_le_of_lt; [lia|].
      destruct sa, sb; cbn [cond_Zopp]; lia. }
    subst M. apply binary_normalize_fits; unfold F32.emax, F32.prec in *;
      change IntDef.Z.min with Z.min; lia.
Qed.

Lemma SFdiv_core_spec (mx : positive) (ex : Z) (my : positive) (ey : Z) :
  let r := SFdiv_core_binary F32.prec F32.emax (Zpos mx) ex (Zpos my) ey in
  let x := Zpos (digits2_pos mx) + ex - (Zpos (digits2_pos my) + ey) in
  0 <= fst (fst r) /\
  snd (fst r) <= fexp F32.prec F32.emax x /\
  Zdigits2 (fst (fst r)) + snd (fst r) <= Z.max (snd (fst r)) (x + 1).
Proof.
  cbv zeta. unfold SFdiv_core_binary. cbn [Zdigits2].
  set (d1 := Zpos (digits2_pos mx)). set (d2 := Zpos (digits2_pos my)).
  set (e' := Z.min (fexp F32.prec F32.emax (d1 + ex - (d2 + ey))) (ex - ey)).
  set (s := ex - ey - e').
  set (m' := match s with
             | Zpos _ => Z.shiftl (Zpos mx) s
             | Z0 => Zpos mx
             | Zneg _ => 0
             end).
  assert (Hs : 0 <= s) by (unfold s, e'; lia).
  assert (Hm' : 0 <= m' < 2 ^ (d1 + s)).
  { pose proof (digits_upper mx) as U. fold d1 in U.
    unfold m'. destruct s as [|p|p] eqn:Es.
    - rewrite Z.add_0_r. lia.
    - rewrite Z.shiftl_mul_pow2 by lia. rewrite Z.pow_add_r by lia.
      assert (0 < 2 ^ Zpos p) by (apply Z.pow_pos_nonneg; lia). nia.
    - lia. }
  pose proof (Z_div_mod m' (Zpos my) ltac:(lia)) as Hdiv.
  destruct (Z.div_eucl m' (Zpos my)) as [q r]. cbn [fst snd].
  destruct Hdiv as [Heq Hr].
  assert (Hq : 0 <= q) by nia.
  split; [exact Hq|]. split; [unfold e'; lia|].
  assert (Hdq : Zdigits2 q <= Z.max 0 (d1 + s - d2 + 1)).
  { destruct (Z.eq_dec q 0) as [->|Hq0]; [cbn; lia|].
    pose proof (digits_lower my) as L. fold d2 in L.
    assert (Hlt : 2 ^ (d2 - 1) < 2 ^ (d1 + s)) by nia.
    apply Z.pow_lt_mono_r_iff in Hlt; [|lia|unfold d1; lia].
    apply Z.le_trans with (d1 + s - d2 + 1); [|lia].
    apply Zdigits2_le_of_lt; [lia|].
    rewrite Z.abs_eq by lia.
    assert (Hsplit : 2 ^ (d1 + s) = 2 ^ (d1 + s - d2 + 1) * 2 ^ (d2 - 1)).
    { rewrite <- Z.pow_add_r by (unfold d2; lia). f_equal. lia. }
    assert (0 < 2 ^ (d2 - 1)) by (apply Z.pow_pos_nonneg; unfold d2; lia).
    nia. }
  unfold s in Hdq. lia.
Qed.

Lemma SFdiv_fits (ka kf k : Z) (a : spec_float) (sb : bool) (mb : positive) (eb : Z) :
  F32.fits ka a -> kf <= Zpos (digits2_pos mb) + eb ->
  ka - kf + 2 <= k -> -125 <= k <= F32.emax ->
  F32.fits k (SFdiv F32.prec F32.emax a (S754_finite sb mb eb)).
Proof.
  intros Ha Hf Hk Hrange.
  destruct a as [sa|sa| |sa ma ea]; cbn [F32.fits SFdiv] in *;
    try exact I; try contradiction.
  pose proof (SFdiv_core_spec ma ea mb eb) as Hc. cbv zeta in Hc.
  destruct (SFdiv_core_binary F32.prec F32.emax (Zpos ma) ea (Zpos mb) eb) as [[q e'] l].
  cbn [fst snd] in Hc. destruct Hc as (H0 & H1 & H2).
  rewrite fexp_eq in H1. unfold F32.emax, F32.prec in *.
  apply binary_round_aux_fits; unfold F32.emax, F32.prec; lia.
Qed.

Lemma binary_round_aux_not_nan (s : bool) (m e : Z) (l : location) :
  0 <= m -> F32.is_nan (binary_round_aux F32.prec F32.emax s m e l) = false.
Proof.
  intros Hm. unfold binary_round_aux.
  destruct (shr_fexp_spec m e l Hm) as (H0 & _ & _).
  destruct (shr_fexp F32.prec F32.emax m e l) as [mrs' e']. cbn [fst snd] in *.
  pose proof (round_nearest_even_bounds (shr_m mrs') (loc_of_shr_record mrs') H0) as Hb.
  set (m1 := round_nearest_even (shr_m mrs') (loc_of_shr_record mrs')) in *.
  destruct (shr_fexp_spec m1 e' loc_Exact ltac:(lia)) as (G0 & _ & _).
  destruct (shr_fexp F32.prec F32.emax m1 e' loc_Exact) as [mrs'' e''].
  cbn [fst snd] in *.
  destruct (shr_m mrs'') as [|p|p]; [reflexivity| |lia].
  destruct (e'' <=? F32.emax - F32.prec); reflexivity.
Qed.

Lemma fits_is_finite (k : Z) (a : F32.t) : F32.fits k a -> F32.is_finite a = true.
Proof. destruct a; cbn; intros; reflexivity || contradiction. Qed.

Lemma magnitude_below_fits (k : Z) (a : F32.t) :
  F32.magnitude_below k a = true -> F32.fits k a.
Proof.
  destruct a as [s|s| |s m e]; cbn; try discriminate; [intros _; exact I|].
  intros [He Hk]%andb_true_iff. apply Z.leb_le in He, Hk. split; assumption.
Qed.

Lemma of_Z_fits (n : Z) : Z.abs n < uint32_max -> F32.fits 33 (F32.of_Z n).
Proof.
  intros Hn. unfold F32.of_Z.
  pose proof (Zdigits2_le_of_lt n 32 ltac:(lia) Hn).
  apply binary_normalize_fits; unfold F32.emax, F32.prec; lia.
Qed.

Lemma div_not_nan (k : Z) (a b : F32.t) :
  F32.fits k a -> F32.is_nonzero_finite b = true -> F32.is_nan (F32.div a b) = false.
Proof.
  intros Ha Hb. destruct b as [| | |sb mb eb]; try discriminate.
  destruct a as [sa|sa| |sa ma ea]; cbn in Ha; try contradiction; [reflexivity|].
  unfold F32.div. cbn [SFdiv].
  pose proof (SFdiv_core_spec ma ea mb eb) as Hc. cbv zeta in Hc.
  destruct (SFdiv_core_binary F32.prec F32.emax (Zpos ma) ea (Zpos mb) eb) as [[q e'] l].
  cbn [fst snd] in Hc. apply binary_round_aux_not_nan. apply Hc.
Qed.

Lemma div_finite (k : Z) (a b : F32.t) :
  F32.fits k a -> k <= 127 -> F32.magnitude_at_least 1 b = true ->
  F32.is_finite (F32.div a b) = true.
Proof.
  intros Ha Hk Hb. destruct b as [| | |sb mb eb]; try discriminate.
  cbn in Hb. apply Z.leb_le in Hb.
  apply (fits_is_finite 128).
  destruct a as [sa|sa| |sa ma ea]; cbn in Ha; try contradiction; [exact I|].
  apply (SFdiv_fits k 1); cbn [F32.fits]; unfold F32.emax; try lia. exact Ha.
Qed.

(** *** The projected point under the invariants of the data model *)

Section ProjectedPoint.

Variables (md : MetaData) (tf : Transform).
Hypothesis Hmd : wf_metadata md = true.
Hypothesis Htf : wf_transform tf = true.

Lemma depth_z_fits (d : Z) :
  is_uint32 d = true -> F32.fits 34 (Engine.depth_z md d).
Proof.
  unfold is_uint32, wf_metadata in *. intros Hd.
  apply andb_true_iff in Hd as [Hd0 Hd1]. apply Z.leb_le in Hd0. apply Z.ltb_lt in Hd1.
  apply andb_true_iff in Hmd as [_ Hs].
  unfold Engine.depth_z, F32.mul.
  apply (SFmul_fits 33 0).
  - apply of_Z_fits. lia.
  - apply magnitude_below_fits, Hs.
  - lia.
  - unfold F32.emax, F32.prec. lia.
Qed.

Lemma offset_fits (c : Z) (o : F32.t) :
  0 <= c < uint32_max -> F32.magnitude_below 64 o = true ->
  F32.fits 66 (F32.sub (F32.of_Z c) o).
Proof.
  intros Hc Ho. unfold F32.sub.
  apply (SFsub_fits 33 64).
  - apply of_Z_fits. lia.
  - apply magnitude_below_fits, Ho.
  - lia.
  - unfold F32.emax. lia.
Qed.

Lemma scaled_offset_fits (c d : Z) (o : F32.t) :
  0 <= c < uint32_max -> F32.magnitude_below 64 o = true -> is_uint32 d = true ->
  F32.fits 101 (F32.mul (F32.sub (F32.of_Z c) o) (Engine.depth_z md d)).
Proof.
  intros Hc Ho Hd. unfold F32.mul.
  apply (SFmul_fits 66 34).
  - apply offset_fits; assumption.
  - apply depth_z_fits, Hd.
  - lia.
  - unfold F32.emax, F32.prec. lia.
Qed.

Lemma projected_is_number (r c d : Z) :
  0 <= r < uint32_max -> 0 <= c < uint32_max -> is_uint32 d = true ->
  point_is_number (Engine.projected md tf r c d) = true /\
  (focal_at_least_one tf = true ->
   point_is_finite (Engine.projected md tf r c d) = true).
Proof.
  intros Hr Hc Hd.
  unfold wf_transform in Htf.
  apply andb_true_iff in Htf as [Htf' Hfy].
  apply andb_true_iff in Htf' as [Htf'' Hfx].
  apply andb_true_iff in Htf'' as [Hcx Hcy].
  pose proof (depth_z_fits d Hd) as Hz.
  pose proof (scaled_offset_fits c d (tf_cx tf) Hc Hcx Hd) as Hx.
  pose proof (scaled_offset_fits r d (tf_cy tf) Hr Hcy Hd) as Hy.
  split.
  - unfold point_is_number, Engine.projected, Engine.point_x, Engine.point_y.
    cbn [pt_x pt_y pt_z].
    rewrite (div_not_nan 101) by assumption.
    rewrite (div_not_nan 101) by assumption.
    apply fits_is_finite in Hz. destruct (Engine.depth_z md d); try discriminate;
      reflexivity.
  - intros [Hfx1 Hfy1]%andb_true_iff.
    unfold point_is_finite, Engine.projected, Engine.point_x, Engine.point_y.
    cbn [pt_x pt_y pt_z].
    rewrite (div_finite 101) by (assumption || lia).
    rewrite (div_finite 101) by (assumption || lia).
    rewrite (fits_is_finite 34) by assumption. reflexivity.
Qed.

Lemma row_col_range (i : nat) :
  Z.of_nat i < uint32_max ->
  0 <= Engine.row_of md i < uint32_max /\ 0 <= Engine.col_of md i < uint32_max.
Proof.
  intros Hi. unfold wf_metadata in Hmd.
  apply andb_true_iff in Hmd as [Hmd' _]. apply andb_true_iff in Hmd' as [Hw _].
  apply Z.leb_le in Hw. unfold Engine.row_of, Engine.col_of.
  pose proof (Z.mod_pos_bound (Z.of_nat i) (md_width md) ltac:(lia)) as Hmod.
  pose proof (Z.mod_le (Z.of_nat i) (md_width md) ltac:(lia) ltac:(lia)) as Hle.
  assert (0 <= Z.of_nat i / md_width md) by (apply Z.div_pos; lia).
  assert (Z.of_nat i / md_width md <= Z.of_nat i)
    by (apply Z.div_le_upper_bound; nia).
  lia.
Qed.

End ProjectedPoint.

(** C4, as stated, fails: with focal lengths that are positive, as the data
    model asks, but as small as [2^-149], the pixel next to the principal
    column overflows in [x]: the output point is neither the invalid marker
    nor a point with three finite coordinates. And with a focal length of
    zero, which nothing in [project] excludes, the pixel on the principal
    column gets a NaN for [x] next to a finite [y] and [z]. *)
Lemma tiny_focal_length_gives_infinite_coordinate :
  (F32.ltb F32.zero (tf_fx tf_tiny) = true /\
   F32.ltb F32.zero (tf_fy tf_tiny) = true /\
   Engine.project md0 tf_tiny [0; 2000] =
     inr [ Engine.invalid_marker md0;
           {| pt_x := S754_infinity false; pt_y := F32.zero; pt_z := F32.two |} ] /\
   {| pt_x := S754_infinity false; pt_y := F32.zero; pt_z := F32.two |}
     <> Engine.invalid_marker md0 /\
   point_is_finite
     {| pt_x := S754_infinity false; pt_y := F32.zero; pt_z := F32.two |} = false) /\
  (Engine.project md0
     {| tf_cx := F32.of_Z 1; tf_cy := F32.of_Z 0;
        tf_fx := F32.zero; tf_fy := F32.of_Z 500 |} [0; 2000] =
     inr [ Engine.invalid_marker md0;
           {| pt_x := F32.nan; pt_y := F32.zero; pt_z := F32.two |} ] /\
   {| pt_x := F32.nan; pt_y := F32.zero; pt_z := F32.two |} <> Engine.invalid_marker md0 /\
   point_is_number {| pt_x := F32.nan; pt_y := F32.zero; pt_z := F32.two |} = false).
Proof.
  repeat apply conj; try (vm_compute; reflexivity); vm_compute; discriminate.
Qed.

(** C4, amended: when [project] succeeds, the output has the length of the
    input and the point at every index is the projection of the sample at
    that index. If moreover the width is positive, the pixel count is within
    [cl_uint], the scaling is below one, the samples are unsigned 32-bit
    integers, the principal point is within [2^64] pixels and the focal
    lengths are finite and not zero, then every output point is either the
    invalid marker or a point none of whose components is a NaN; its
    components are all finite when the focal lengths are at least one
    pixel. *)
Theorem project_postcondition
  (md : MetaData) (tf : Transform) (frame : list Z) (out : list PointXYZ) :
  Engine.project md tf frame = inr out ->
  length out = length frame /\
  (forall i d, frame !! i = Some d ->
     out !! i =
       Some (Engine.project_pixel md tf (Engine.row_of md i) (Engine.col_of md i) d)) /\
  (wf_metadata md = true -> wf_transform tf = true ->
   Forall (fun d => is_uint32 d = true) frame ->
   forall i p, out !! i = Some p ->
     p = Engine.invalid_marker md \/
     (point_is_number p = true /\
      (focal_at_least_one tf = true -> point_is_finite p = true))).
Proof.
  intros Hout. split; [|split].
  - eapply project_length, Hout.
  - intros i d Hd. eapply project_lookup; eassumption.
  - intros Hmd Htf Hframe i p Hp.
    destruct (project_inr md tf frame out Hout) as [Hlen ->].
    apply list_lookup_imap_Some in Hp as (d & Hd & ->).
    unfold Engine.project_pixel.
    destruct (Engine.is_sentinel md d || Engine.is_clamped md d); [left; reflexivity|].
    right.
    assert (Hi : Z.of_nat i < uint32_max).
    { apply lookup_lt_Some in Hd. unfold wf_metadata in Hmd.
      apply andb_true_iff in Hmd as [Hmd' _]. apply andb_true_iff in Hmd' as [_ Hn].
      apply Z.leb_le in Hn. lia. }
    destruct (row_col_range md Hmd i Hi) as [Hr Hc].
    apply projected_is_number; try assumption.
    rewrite Forall_lookup in Hframe. eapply Hframe, Hd.
Qed.

Lemma project_postcondition_witness :
  length [Engine.invalid_marker md0; Engine.projected md0 tf_wide 0 1 2000] =
    length [0; 2000] /\
  (Engine.projected md0 tf_wide 0 1 2000 = Engine.invalid_marker md0 \/
   point_is_finite (Engine.projected md0 tf_wide 0 1 2000) = true).
Proof.
  destruct (project_postcondition md0 tf_wide [0; 2000]
              [Engine.invalid_marker md0; Engine.projected md0 tf_wide 0 1 2000])
    as (Hlen & _ & H).
  - vm_compute. reflexivity.
  - split; [exact Hlen|].
    destruct (H eq_refl eq_refl) with (i := 1%nat) (p := Engine.projected md0 tf_wide 0 1 2000)
      as [Hm | [_ Hf]].
    + repeat constructor.
    + reflexivity.
    + left. exact Hm.
    + right. apply Hf. reflexivity.
Defined.

(** ** Reasoning about one run of [depthCb] *)

Ltac unfold_cb :=
  unfold depthCb, depthCb_body, convert_and_publish, ocl_setup, convert_to_pcl,
    toCvCopy, init_CL, program_kernel, init_buffers, initCloud, setTFData,
    setMetaData, on_engine, log, publish, ros_shutdown,
    engine_throws,
    Cb.exec, Cb.bind, Cb.try_catch, Cb.throw, Cb.ret, Cb.get,
    Cb.modify in *.

Ltac destruct_oracles :=
  repeat match goal with
    | |- context [match ?o with _ => _ end] =>
        match type of o with
        | option _ => destruct o eqn:?
        | bool => destruct o eqn:?
        | sum _ _ => destruct o eqn:?
        | Engine.ProjectError => destruct o
        end; simpl in *
    | |- context [if ?b then _ else _] => destruct b eqn:?; simpl in *
    end.

(** C8: without OpenCL, [depthCb] reports an error and does nothing else: no
    cloud is published, the engine receives no call at all (so no projection,
    accelerated or not, is computed), and the nodelet stays unprepared or
    prepared as it was. *)
Theorem no_opencl_drops_frame
  (n : Nodelet) (depth_msg : ImageMsg) (info_msg : CameraInfoMsg) (env : Env) :
  haveOpenCL env = false ->
  let n' := depthCb n depth_msg info_msg env in
  last (ros_log n') = Some (LError, "GPU has no OpenCL support!") /\
  published n' = published n /\
  pcl_conversion_ n' = pcl_conversion_ n /\
  kernel_ready_ n' = kernel_ready_ n /\
  shutdown_requested n' = shutdown_requested n.
Proof.
  intros Hcl. unfold_cb. rewrite Hcl.
  destruct (toCvCopy_throws env); simpl; rewrite last_snoc; auto.
Qed.

Lemma no_opencl_drops_frame_witness :
  last (ros_log (depthCb nodelet0 msg0 info0 env_no_opencl)) =
    Some (LError, "GPU has no OpenCL support!") /\
  published (depthCb nodelet0 msg0 info0 env_no_opencl) = [].
Proof.
  destruct (no_opencl_drops_frame nodelet0 msg0 info0 env_no_opencl)
    as (Hlog & Hpub & _).
  - reflexivity.
  - split; [exact Hlog | exact Hpub].
Defined.

(** Fields that [depthCb] never writes. *)
Lemma depthCb_static_fields
  (n : Nodelet) (depth_msg : ImageMsg) (info_msg : CameraInfoMsg) (env : Env) :
  let n' := depthCb n depth_msg info_msg env in
  tf_frame_ n' = tf_frame_ n /\ cl_file_path_ n' = cl_file_path_ n /\
  queue_size_ n' = queue_size_ n /\ sub_depth_ n' = sub_depth_ n.
Proof.
  unfold_cb. simpl. destruct_oracles; auto.
Qed.

(** One run of [depthCb] publishes nothing or exactly one cloud, stamped from
    the frame it was called with. *)
Lemma depthCb_published
  (n : Nodelet) (depth_msg : ImageMsg) (info_msg : CameraInfoMsg) (env : Env) :
  let n' := depthCb n depth_msg info_msg env in
  published n' = published n \/
  exists pc, published n' = published n ++ [stamp_cloud depth_msg (tf_frame_ n) pc].
Proof.
  unfold_cb. simpl. destruct_oracles; eauto.
Qed.

Lemma connectCb_fields (k : nat) (n : Nodelet) :
  published (connectCb k n) = published n /\
  tf_frame_ (connectCb k n) = tf_frame_ n /\
  kernel_ready_ (connectCb k n) = kernel_ready_ n /\
  pcl_conversion_ (connectCb k n) = pcl_conversion_ n /\
  shutdown_requested (connectCb k n) = shutdown_requested n.
Proof.
  unfold connectCb. case_decide; [|destruct (sub_depth_ n)]; simpl; auto.
Qed.

Lemma run_snoc (n : Nodelet) (evs : list Event) (ev : Event) :
  run n (evs ++ [ev]) = step (run n evs) ev.
Proof. unfold run. rewrite fold_left_app. reflexivity. Qed.

Lemma run_cons (n : Nodelet) (evs : list Event) (ev : Event) :
  run n (ev :: evs) = run (step n ev) evs.
Proof. reflexivity. Qed.

(** A property kept by every step holds along every run. *)
Lemma run_invariant (I : Nodelet -> Prop) (n : Nodelet) (evs : list Event) :
  (forall m ev, I m -> I (step m ev)) -> I n -> I (run n evs).
Proof.
  intros Hstep. revert n.
  induction evs as [|ev evs IH]; intros n Hn; [exact Hn|].
  rewrite run_cons. apply IH, Hstep, Hn.
Qed.

Lemma step_tf_frame (n : Nodelet) (ev : Event) : tf_frame_ (step n ev) = tf_frame_ n.
Proof.
  destruct ev as [k|m i env]; simpl.
  - apply connectCb_fields.
  - destruct (sub_depth_ n); [apply depthCb_static_fields|reflexivity].
Qed.

Lemma run_tf_frame (n : Nodelet) (evs : list Event) :
  tf_frame_ (run n evs) = tf_frame_ n.
Proof.
  apply (run_invariant (fun m => tf_frame_ m = tf_frame_ n)); [|reflexivity].
  intros m ev <-. apply step_tf_frame.
Qed.

(** Nanoseconds to microseconds: for [uint32] seconds and nanoseconds the
    64-bit sum does not wrap. *)
Lemma stamp_microseconds (t : Time) :
  0 <= sec t < uint32_max -> 0 <= nsec t < uint32_max ->
  toNSec t / 1000 = sec t * 1000000 + nsec t / 1000.
Proof.
  unfold toNSec, uint32_max, uint64_max. intros Hs Hn.
  rewrite Z.mod_small by lia.
  replace (sec t * 1000000000) with (sec t * 1000000 * 1000) by lia.
  rewrite Z.div_add_l by lia. reflexivity.
Qed.

Lemma stamp_cloud_stamped (frame : string) (depth_msg : ImageMsg) (pc : PointCloud) :
  stamped_from frame depth_msg (stamp_cloud depth_msg frame pc).
Proof.
  unfold stamped_from. simpl. repeat split.
  intros Hs Hn. apply stamp_microseconds; assumption.
Qed.

(** C9: the cloud that a run of [depthCb] publishes for a frame has
    [is_dense = false], the width, height and time stamp of that very frame,
    the stamp converted from nanoseconds to microseconds, and the [frame_id]
    configured by parameter [tf_frame] (["kinect2_link"] by default); and
    every cloud published during the life of the nodelet was published in
    this way, by the callback of one of the frames received. *)
Theorem published_cloud_header
  (params : gmap string ParamValue) (package_path : string) (evs : list Event)
  (depth_msg : ImageMsg) (info_msg : CameraInfoMsg) (env : Env) :
  let frame := param_string params "tf_frame" "kinect2_link" in
  let n := run (onInit params package_path) evs in
  let n' := depthCb n depth_msg info_msg env in
  (published n' = published n \/
   exists pc, published n' = published n ++ [pc] /\ stamped_from frame depth_msg pc) /\
  (forall pc, pc ∈ published n ->
     exists pre msg info e post,
       evs = pre ++ Frame msg info e :: post /\
       published (run (onInit params package_path) (pre ++ [Frame msg info e])) =
         published (run (onInit params package_path) pre) ++ [pc] /\
       stamped_from frame msg pc).
Proof.
  cbv zeta. split.
  - destruct (depthCb_published (run (onInit params package_path) evs)
                depth_msg info_msg env) as [Hp | [pc0 Hp]]; [left; exact Hp|].
    right. eexists. split; [exact Hp|].
    rewrite run_tf_frame. apply stamp_cloud_stamped.
  - induction evs as [|ev evs IH] using rev_ind; intros pc Hpc.
    + simpl in Hpc. inversion Hpc.
    + rewrite run_snoc in Hpc.
      assert (Hold : pc ∈ published (run (onInit params package_path) evs) ->
                exists pre msg info e post,
                  evs ++ [ev] = pre ++ Frame msg info e :: post /\
                  published (run (onInit params package_path) (pre ++ [Frame msg info e])) =
                    published (run (onInit params package_path) pre) ++ [pc] /\
                  stamped_from (param_string params "tf_frame" "kinect2_link") msg pc).
      { intros H. destruct (IH pc H) as (pre & m & i & e & post & -> & Hrest).
        exists pre, m, i, e, (post ++ [ev]). split; [|exact Hrest].
        rewrite <- app_assoc. reflexivity. }
      destruct ev as [k|m i e]; simpl in Hpc.
      * destruct (connectCb_fields k (run (onInit params package_path) evs)) as (Hp & _).
        rewrite Hp in Hpc. auto.
      * destruct (sub_depth_ (run (onInit params package_path) evs)) eqn:Hsub; [|auto].
        destruct (depthCb_published (run (onInit params package_path) evs) m i e)
          as [Hp | [pc0 Hp]]; rewrite Hp in Hpc; [auto|].
        apply elem_of_app in Hpc. destruct Hpc as [Hpc|Hpc]; [auto|].
        apply list_elem_of_singleton in Hpc. subst pc.
        exists evs, m, i, e, []. split; [reflexivity|]. split.
        -- rewrite run_snoc. simpl. rewrite Hsub. exact Hp.
        -- rewrite run_tf_frame. apply stamp_cloud_stamped.
Qed.

Lemma published_cloud_header_witness :
  exists pre msg info e post,
    [Connect 1; Frame msg0 info0 env_ok; Frame msg0_later info0 env_ok] =
      pre ++ Frame msg info e :: post /\
    published (run (onInit ∅ "/opt/pses") (pre ++ [Frame msg info e])) =
      published (run (onInit ∅ "/opt/pses") pre)
      ++ [stamp_cloud msg0_later "kinect2_link" (cloud_of_points scenario_points)] /\
    stamped_from (param_string ∅ "tf_frame" "kinect2_link") msg
      (stamp_cloud msg0_later "kinect2_link" (cloud_of_points scenario_points)).
Proof.
  apply (proj2 (published_cloud_header ∅ "/opt/pses"
                  [Connect 1; Frame msg0 info0 env_ok; Frame msg0_later info0 env_ok]
                  msg0 info0 env_ok)).
  vm_compute. apply list_elem_of_further, list_elem_of_here.
Defined.

(** C10: an exception thrown while decoding the depth message is caught and
    logged, and changes nothing else: what is published, the engine, the
    [kernel_ready_] flag and the shutdown request are the same as when the
    decoding succeeds, and the log differs by the [cv_bridge] entry alone. In
    particular a prepared nodelet with a working backend still publishes the
    projection of the raw samples of the message. *)
Theorem decode_failure_is_ignored
  (n : Nodelet) (depth_msg : ImageMsg) (info_msg : CameraInfoMsg) (env : Env)
  (w : string) :
  let n_ok := depthCb n depth_msg info_msg (with_toCvCopy None env) in
  let n_ex := depthCb n depth_msg info_msg (with_toCvCopy (Some w) env) in
  published n_ex = published n_ok /\
  pcl_conversion_ n_ex = pcl_conversion_ n_ok /\
  kernel_ready_ n_ex = kernel_ready_ n_ok /\
  shutdown_requested n_ex = shutdown_requested n_ok /\
  (exists entries,
     ros_log n_ok = ros_log n ++ entries /\
     ros_log n_ex = ros_log n ++ (LError, "cv_bridge exception: " +:+ w) :: entries) /\
  (forall md tf pts,
     haveOpenCL env = true ->
     kernel_ready_ n = true ->
     convert_to_pcl_throws env = None ->
     eng_prepared (pcl_conversion_ n) = true ->
     eng_md (pcl_conversion_ n) = Some md ->
     eng_tf (pcl_conversion_ n) = Some tf ->
     Engine.project md tf (img_data depth_msg) = inr pts ->
     published n_ex =
       published n ++ [stamp_cloud depth_msg (tf_frame_ n) (cloud_of_points pts)]).
Proof.
  cbv zeta. repeat apply conj.
  - unfold_cb. simpl. destruct_oracles; reflexivity.
  - unfold_cb. simpl. destruct_oracles; reflexivity.
  - unfold_cb. simpl. destruct_oracles; reflexivity.
  - unfold_cb. simpl. destruct_oracles; reflexivity.
  - unfold_cb. simpl.
    destruct_oracles; rewrite <- ?app_assoc; simpl;
      eexists; (split; [try reflexivity; symmetry; apply app_nil_r | reflexivity]).
  - intros md tf pts Hcl Hready Hconv Hprep Hmd Htf Hproj.
    unfold_cb. simpl. rewrite Hcl. simpl. rewrite Hready. simpl.
    rewrite Hconv. simpl. rewrite ?Hprep, Hmd, Htf, Hproj. reflexivity.
Qed.

Lemma decode_failure_is_ignored_witness :
  published (depthCb nodelet1 msg0 info0 (with_toCvCopy (Some "bad encoding") env_ok)) =
    published nodelet1 ++
      [stamp_cloud msg0 "kinect2_link"
         (cloud_of_points
            [ {| pt_x := F32.nan; pt_y := F32.nan; pt_z := F32.nan |};
              {| pt_x := F32.zero; pt_y := F32.zero; pt_z := F32.two |} ])].
Proof.
  destruct (decode_failure_is_ignored nodelet1 msg0 info0 env_ok "bad encoding")
    as (_ & _ & _ & _ & _ & H).
  apply (H (make_metadata msg0) (make_transform info0)); vm_compute; reflexivity.
Defined.

(** ** One-time setup *)

Lemma setup_attempts_snoc (e : DepthImageToPCL) (c : EngineCall) (n : Nodelet) :
  setup_attempts (set_engine (record_call c e) n) =
    (length (filter (fun c => is_InitCL c = true) (eng_calls e))
     + (if is_InitCL c then 1 else 0))%nat.
Proof.
  unfold setup_attempts. simpl. rewrite filter_app, length_app.
  destruct c; reflexivity.
Qed.

(** Once [kernel_ready_] is set, [depthCb] never starts the setup again,
    leaves the metadata and the transform as they are and never makes the
    engine ready. *)
Lemma depthCb_when_ready
  (n : Nodelet) (depth_msg : ImageMsg) (info_msg : CameraInfoMsg) (env : Env) :
  kernel_ready_ n = true ->
  let n' := depthCb n depth_msg info_msg env in
  kernel_ready_ n' = true /\
  setup_attempts n' = setup_attempts n /\
  eng_md (pcl_conversion_ n') = eng_md (pcl_conversion_ n) /\
  eng_tf (pcl_conversion_ n') = eng_tf (pcl_conversion_ n) /\
  (eng_prepared (pcl_conversion_ n') = true -> eng_prepared (pcl_conversion_ n) = true).
Proof.
  intros Hready. unfold_cb. simpl. unfold setup_attempts.
  destruct_oracles; simpl; rewrite ?Hready; simpl;
    rewrite ?filter_app, ?length_app; simpl; rewrite ?Nat.add_0_r;
    repeat split; auto; congruence.
Qed.

(** The first frame that finds OpenCL starts the setup and sets the flag,
    whether the setup succeeds or not. *)
Lemma depthCb_first_setup
  (n : Nodelet) (depth_msg : ImageMsg) (info_msg : CameraInfoMsg) (env : Env) :
  kernel_ready_ n = false ->
  haveOpenCL env = true ->
  let n' := depthCb n depth_msg info_msg env in
  kernel_ready_ n' = true /\
  setup_attempts n' = S (setup_attempts n) /\
  eng_md (pcl_conversion_ n') = Some (make_metadata depth_msg) /\
  eng_tf (pcl_conversion_ n') = Some (make_transform info_msg).
Proof.
  intros Hready Hcl. unfold_cb. simpl. unfold setup_attempts.
  rewrite Hcl. destruct_oracles; simpl; rewrite ?Hready; simpl;
    rewrite ?filter_app, ?length_app; simpl; auto with lia; congruence.
Qed.

Lemma depthCb_without_opencl
  (n : Nodelet) (depth_msg : ImageMsg) (info_msg : CameraInfoMsg) (env : Env) :
  haveOpenCL env = false ->
  kernel_ready_ (depthCb n depth_msg info_msg env) = kernel_ready_ n /\
  pcl_conversion_ (depthCb n depth_msg info_msg env) = pcl_conversion_ n /\
  published (depthCb n depth_msg info_msg env) = published n.
Proof.
  intros Hcl. unfold_cb. rewrite Hcl. destruct_oracles; auto.
Qed.

Lemma setup_once_step (n : Nodelet) (ev : Event) :
  setup_once n -> setup_once (step n ev).
Proof.
  intros [Hle Hnot]. destruct ev as [k|m i env]; simpl.
  - destruct (connectCb_fields k n) as (_ & _ & Hk & He & _).
    unfold setup_once, setup_attempts in *. rewrite Hk, He. split; assumption.
  - destruct (sub_depth_ n); [|split; assumption].
    destruct (kernel_ready_ n) eqn:Hready.
    + destruct (depthCb_when_ready n m i env Hready) as (Hk & Ha & _).
      split; [lia|]. rewrite Hk. discriminate.
    + destruct (Hnot eq_refl) as [H0 Hprep].
      destruct (haveOpenCL env) eqn:Hcl.
      * destruct (depthCb_first_setup n m i env Hready Hcl) as (Hk & Ha & _).
        split; [lia|]. rewrite Hk. discriminate.
      * destruct (depthCb_without_opencl n m i env Hcl) as (Hk & He & _).
        unfold setup_once, setup_attempts in *. rewrite Hk, He. split; [lia|].
        intros _. split; assumption.
Qed.

Lemma setup_once_reachable
  (params : gmap string ParamValue) (package_path : string) (evs : list Event) :
  setup_once (run (onInit params package_path) evs).
Proof.
  apply run_invariant; [apply setup_once_step|].
  split; [unfold setup_attempts; simpl; lia|]. intros _. split; reflexivity.
Qed.

Lemma setup_frame_calls
  (n : Nodelet) (depth_msg : ImageMsg) (info_msg : CameraInfoMsg) (env : Env) :
  haveOpenCL env = true ->
  kernel_ready_ n = false ->
  eng_calls (pcl_conversion_ (depthCb n depth_msg info_msg env)) =
    eng_calls (pcl_conversion_ n)
    ++ setup_calls (cl_file_path_ n) depth_msg info_msg env ++ [ConvertToPcl].
Proof.
  intros Hcl Hready. unfold_cb. simpl. unfold setup_calls. rewrite Hcl.
  destruct (toCvCopy_throws env); simpl; rewrite Hready; simpl;
    destruct (init_CL_throws env), (program_kernel_throws env),
      (init_buffers_throws env), (convert_to_pcl_throws env); simpl;
    destruct_oracles; rewrite <- ?app_assoc; reflexivity.
Qed.

Lemma ready_frame_calls
  (n : Nodelet) (depth_msg : ImageMsg) (info_msg : CameraInfoMsg) (env : Env) :
  haveOpenCL env = true ->
  kernel_ready_ n = true ->
  eng_calls (pcl_conversion_ (depthCb n depth_msg info_msg env)) =
    eng_calls (pcl_conversion_ n) ++ [ConvertToPcl].
Proof.
  intros Hcl Hready. unfold_cb. simpl. rewrite Hcl.
  destruct (toCvCopy_throws env); simpl; rewrite Hready; simpl;
    destruct_oracles; reflexivity.
Qed.

Lemma ready_run (n : Nodelet) (evs : list Event) :
  kernel_ready_ n = true ->
  kernel_ready_ (run n evs) = true /\ setup_attempts (run n evs) = setup_attempts n.
Proof.
  intros Hready.
  apply (run_invariant
           (fun m => kernel_ready_ m = true /\ setup_attempts m = setup_attempts n));
    [|auto].
  intros m ev [Hk Ha]. destruct ev as [k|msg info env]; simpl.
  - destruct (connectCb_fields k m) as (_ & _ & Hk' & He & _).
    unfold setup_attempts in *. rewrite Hk', He. auto.
  - destruct (sub_depth_ m); [|auto].
    destruct (depthCb_when_ready m msg info env Hk) as (Hk' & Ha' & _).
    rewrite Hk', Ha'. auto.
Qed.

(** C5, as stated, fails: after a first frame has prepared the nodelet, a
    frame with other intrinsics is projected with the transform of the first
    frame, a frame with other dimensions meets the metadata of the first
    frame, and in both cases the setup has still run once only. *)
Lemma recalibration_is_not_detected :
  (let n2 := depthCb nodelet1 msg0 info1 env_ok in
   eng_tf (pcl_conversion_ n2) = Some (make_transform info0) /\
   Some (make_transform info0) <> Some (make_transform info1) /\
   setup_attempts n2 = 1%nat /\
   Engine.project (make_metadata msg0) (make_transform info0) (img_data msg0) =
     inr scenario_points /\
   pc_points <$> published n2 = [scenario_points; scenario_points] /\
   Engine.project (make_metadata msg0) (make_transform info1) (img_data msg0) <>
     inr scenario_points) /\
  (let n2 := depthCb nodelet1 msg_2x2 info0 env_ok in
   eng_md (pcl_conversion_ n2) = Some (make_metadata msg0) /\
   Some (make_metadata msg0) <> Some (make_metadata msg_2x2) /\
   setup_attempts n2 = 1%nat).
Proof.
  repeat apply conj; try (vm_compute; reflexivity); vm_compute; discriminate.
Qed.

(** C5, amended: the setup is started at most once in the life of the
    nodelet. It runs on the first frame that finds OpenCL while
    [kernel_ready_] is false: that frame sets the flag, stores the metadata
    of the frame and the transform of its camera info, and calls [init_CL]
    with the configured path, then [program_kernel] and [init_buffers] (up to
    the first that throws). Once the flag is set, a run of [depthCb] starts no
    setup, makes the single call [convert_to_pcl] and leaves the metadata and
    the transform held by the engine unchanged, whatever the dimensions and
    intrinsics that come with the frame. *)
Theorem prepare_once_per_lifetime
  (params : gmap string ParamValue) (package_path : string) (evs : list Event)
  (depth_msg : ImageMsg) (info_msg : CameraInfoMsg) (env : Env) :
  let n := run (onInit params package_path) evs in
  let n' := depthCb n depth_msg info_msg env in
  (setup_attempts n <= 1)%nat /\
  (kernel_ready_ n = false -> haveOpenCL env = true ->
   kernel_ready_ n' = true /\
   setup_attempts n = 0%nat /\ setup_attempts n' = 1%nat /\
   eng_md (pcl_conversion_ n') = Some (make_metadata depth_msg) /\
   eng_tf (pcl_conversion_ n') = Some (make_transform info_msg) /\
   eng_calls (pcl_conversion_ n') =
     eng_calls (pcl_conversion_ n)
     ++ setup_calls (cl_file_path_ n) depth_msg info_msg env ++ [ConvertToPcl]) /\
  (kernel_ready_ n = true ->
   kernel_ready_ n' = true /\
   setup_attempts n' = setup_attempts n /\
   eng_md (pcl_conversion_ n') = eng_md (pcl_conversion_ n) /\
   eng_tf (pcl_conversion_ n') = eng_tf (pcl_conversion_ n) /\
   (haveOpenCL env = true ->
    eng_calls (pcl_conversion_ n') = eng_calls (pcl_conversion_ n) ++ [ConvertToPcl])).
Proof.
  cbv zeta. split; [|split].
  - apply setup_once_reachable.
  - intros Hready Hcl.
    destruct (setup_once_reachable params package_path evs) as [_ Hnot].
    destruct (Hnot Hready) as [H0 _].
    destruct (depthCb_first_setup _ depth_msg info_msg env Hready Hcl)
      as (Hk & Ha & Hmd & Htf).
    rewrite H0 in Ha.
    repeat (split; [assumption|]).
    apply setup_frame_calls; assumption.
  - intros Hready.
    destruct (depthCb_when_ready _ depth_msg info_msg env Hready)
      as (Hk & Ha & Hmd & Htf & _).
    repeat (split; [assumption|]).
    intros Hcl. apply ready_frame_calls; assumption.
Qed.

Lemma prepare_once_per_lifetime_witness :
  (setup_attempts (depthCb (run (onInit ∅ "/opt/pses") [Connect 1]) msg0 info0 env_ok)
     = 1%nat /\
   eng_calls (pcl_conversion_
                (depthCb (run (onInit ∅ "/opt/pses") [Connect 1]) msg0 info0 env_ok)) =
     [SetMetaData (make_metadata msg0); SetTFData (make_transform info0); InitCloud;
      InitCL "/opt/pses/ocl_kernel/ocl_kernel.cl"; ProgramKernel "depth_to_pcl";
      InitBuffers; ConvertToPcl]) /\
  (kernel_ready_ first_frame_done = true /\
   setup_attempts (depthCb first_frame_done msg_2x2 info1 env_ok) =
     setup_attempts first_frame_done /\
   eng_md (pcl_conversion_ (depthCb first_frame_done msg_2x2 info1 env_ok)) =
     eng_md (pcl_conversion_ first_frame_done)).
Proof.
  split.
  - destruct (prepare_once_per_lifetime ∅ "/opt/pses" [Connect 1] msg0 info0 env_ok)
      as (_ & H & _).
    destruct H as (_ & _ & Ha & _ & _ & Hc).
    + reflexivity.
    + reflexivity.
    + split; [exact Ha|]. rewrite Hc. reflexivity.
  - destruct (prepare_once_per_lifetime ∅ "/opt/pses" [Connect 1; Frame msg0 info0 env_ok]
                msg_2x2 info1 env_ok) as (_ & _ & H).
    destruct H as (_ & Ha & Hmd & _).
    + vm_compute. reflexivity.
    + split; [vm_compute; reflexivity|]. split; [exact Ha | exact Hmd].
Defined.

(** ** Failures *)

Lemma depthCb_setup_failure
  (n : Nodelet) (depth_msg : ImageMsg) (info_msg : CameraInfoMsg) (env : Env)
  (e : Exception) :
  kernel_ready_ n = false ->
  haveOpenCL env = true ->
  setup_exception env = Some e ->
  let n' := depthCb n depth_msg info_msg env in
  (LError, "An error occured during OCL setup! " +:+ what e) ∈ ros_log n' /\
  shutdown_requested n' = true.
Proof.
  intros Hready Hcl Hexn. unfold setup_exception in *.
  unfold_cb. simpl. rewrite Hcl.
  destruct (toCvCopy_throws env); simpl; rewrite Hready; simpl;
    (destruct (init_CL_throws env) as [e1|];
     [|destruct (program_kernel_throws env) as [e2|];
       [|destruct (init_buffers_throws env) as [e3|]]]);
    simplify_eq; simpl; destruct_oracles; split; set_solver.
Qed.

(** C6, as stated, fails: after a setup that threw, [kernel_ready_] is true
    and the shutdown of the node is requested; a next frame, with a healthy
    environment, starts no new setup: the only call it makes on the engine is
    [convert_to_pcl]. *)
Lemma setup_failure_is_not_retried :
  let n1 := depthCb nodelet0 msg0 info0 env_setup_fails in
  let n2 := depthCb n1 msg0 info0 env_ok in
  kernel_ready_ n1 <> false /\
  shutdown_requested n1 = true /\
  setup_attempts n1 = 1%nat /\
  setup_attempts n2 = 1%nat /\
  eng_calls (pcl_conversion_ n2) = eng_calls (pcl_conversion_ n1) ++ [ConvertToPcl].
Proof.
  repeat apply conj; try (vm_compute; reflexivity). vm_compute. discriminate.
Qed.

(** C6, amended: when the setup throws, [depthCb] logs the error and requests
    the shutdown of the whole node; [kernel_ready_] was set before the attempt
    and stays set, so that whatever comes next the setup is never started
    again. *)
Theorem setup_failure_is_final
  (params : gmap string ParamValue) (package_path : string) (evs later : list Event)
  (depth_msg : ImageMsg) (info_msg : CameraInfoMsg) (env : Env) (e : Exception) :
  let n := run (onInit params package_path) evs in
  kernel_ready_ n = false ->
  haveOpenCL env = true ->
  setup_exception env = Some e ->
  let n' := depthCb n depth_msg info_msg env in
  (LError, "An error occured during OCL setup! " +:+ what e) ∈ ros_log n' /\
  shutdown_requested n' = true /\
  kernel_ready_ n' = true /\
  setup_attempts n' = 1%nat /\
  kernel_ready_ (run n' later) = true /\
  setup_attempts (run n' later) = 1%nat.
Proof.
  cbv zeta. intros Hready Hcl Hexn.
  destruct (setup_once_reachable params package_path evs) as [_ Hnot].
  destruct (Hnot Hready) as [H0 _].
  destruct (depthCb_setup_failure _ depth_msg info_msg env e Hready Hcl Hexn)
    as (Hlog & Hsh).
  destruct (depthCb_first_setup _ depth_msg info_msg env Hready Hcl) as (Hk & Ha & _).
  rewrite H0 in Ha.
  destruct (ready_run _ later Hk) as (Hk' & Ha').
  rewrite Ha' , Ha. repeat split; assumption.
Qed.

Lemma setup_failure_is_final_witness :
  shutdown_requested (depthCb (run (onInit ∅ "/opt/pses") [Connect 1])
                        msg0 info0 env_setup_fails) = true /\
  setup_attempts (run (depthCb (run (onInit ∅ "/opt/pses") [Connect 1])
                         msg0 info0 env_setup_fails)
                    [Frame msg0 info0 env_ok]) = 1%nat.
Proof.
  destruct (setup_failure_is_final ∅ "/opt/pses" [Connect 1] [Frame msg0 info0 env_ok]
              msg0 info0 env_setup_fails
              {| what := "kernel source not found"; backend_lost := false |})
    as (_ & Hsh & _ & _ & _ & Ha).
  - reflexivity.
  - reflexivity.
  - reflexivity.
  - split; [exact Hsh | exact Ha].
Defined.

(** C7: on a nodelet flagged ready whose engine is prepared, an exception
    thrown by the conversion is caught and logged with its text, as the last
    log entry of that frame, and nothing is published for that frame; the
    flag stays set and no shutdown is requested. The engine is [Failed]
    afterwards when the exception tells that the backend is lost and still
    [Prepared] when the error is transient, so that the two cases can be told
    apart; after a transient error a next frame with a working backend is
    converted and published. *)
Theorem conversion_failure_is_logged
  (n : Nodelet) (depth_msg : ImageMsg) (info_msg : CameraInfoMsg) (env : Env)
  (e : Exception) :
  haveOpenCL env = true ->
  kernel_ready_ n = true ->
  engine_state (pcl_conversion_ n) = Prepared ->
  convert_to_pcl_throws env = Some e ->
  let n' := depthCb n depth_msg info_msg env in
  last (ros_log n') =
    Some (LError, "An error occured during depth to pcl conversion! " +:+ what e) /\
  published n' = published n /\
  kernel_ready_ n' = true /\
  shutdown_requested n' = shutdown_requested n /\
  engine_state (pcl_conversion_ n') = (if backend_lost e then Failed else Prepared) /\
  (engine_state (pcl_conversion_ n') = Failed <-> backend_lost e = true) /\
  (backend_lost e = false ->
   forall msg2 info2 env2 md tf pts,
     haveOpenCL env2 = true ->
     convert_to_pcl_throws env2 = None ->
     eng_md (pcl_conversion_ n) = Some md ->
     eng_tf (pcl_conversion_ n) = Some tf ->
     Engine.project md tf (img_data msg2) = inr pts ->
     published (depthCb n' msg2 info2 env2) =
       published n ++ [stamp_cloud msg2 (tf_frame_ n) (cloud_of_points pts)]).
Proof.
  intros Hcl Hready Hstate Hconv.
  assert (Hprep : eng_prepared (pcl_conversion_ n) = true).
  { unfold engine_state in Hstate.
    destruct (eng_prepared (pcl_conversion_ n)); [reflexivity|].
    destruct (eng_failed (pcl_conversion_ n)); discriminate. }
  cbv zeta. repeat apply conj.
  - unfold_cb. simpl. rewrite Hcl, Hconv. simpl.
    destruct (toCvCopy_throws env), (backend_lost e); simpl; rewrite Hready; simpl;
      apply last_snoc.
  - unfold_cb. simpl. rewrite Hcl, Hconv. simpl.
    destruct (toCvCopy_throws env), (backend_lost e); simpl; rewrite Hready; reflexivity.
  - unfold_cb. simpl. rewrite Hcl, Hconv. simpl.
    destruct (toCvCopy_throws env), (backend_lost e); simpl; rewrite Hready; simpl;
      exact Hready.
  - unfold_cb. simpl. rewrite Hcl, Hconv. simpl.
    destruct (toCvCopy_throws env), (backend_lost e); simpl; rewrite Hready; reflexivity.
  - unfold_cb. simpl. rewrite Hcl, Hconv. unfold engine_state. simpl.
    destruct (toCvCopy_throws env), (backend_lost e); simpl; rewrite Hready; simpl;
      rewrite ?Hprep; reflexivity.
  - unfold_cb. simpl. rewrite Hcl, Hconv. unfold engine_state. simpl.
    destruct (toCvCopy_throws env), (backend_lost e); simpl; rewrite Hready; simpl;
      rewrite ?Hprep; intros; congruence.
  - unfold_cb. simpl. rewrite Hcl, Hconv. unfold engine_state. simpl.
    destruct (toCvCopy_throws env), (backend_lost e); simpl; rewrite Hready; simpl;
      rewrite ?Hprep; intros; congruence.
  - unfold_cb. simpl. rewrite Hcl, Hconv. simpl.
    destruct (toCvCopy_throws env), (backend_lost e); simpl; rewrite Hready; simpl;
      intros Hb; try discriminate;
      intros msg2 info2 env2 md tf pts Hcl2 Hconv2 Hmd Htf Hproj;
      rewrite Hcl2; destruct (toCvCopy_throws env2); simpl; rewrite Hready; simpl;
      rewrite Hconv2; simpl; rewrite ?Hprep, Hmd, Htf, Hproj; reflexivity.
Qed.

Lemma conversion_failure_is_logged_witness :
  (last (ros_log (depthCb nodelet1 msg0 info0 (with_convert (Some device_lost) env_ok))) =
     Some (LError,
           "An error occured during depth to pcl conversion! OpenCL device error") /\
   engine_state
     (pcl_conversion_ (depthCb nodelet1 msg0 info0 (with_convert (Some device_lost) env_ok)))
     = Failed) /\
  (engine_state
     (pcl_conversion_
        (depthCb nodelet1 msg0 info0 (with_convert (Some device_hiccup) env_ok)))
     = Prepared /\
   published
     (depthCb (depthCb nodelet1 msg0 info0 (with_convert (Some device_hiccup) env_ok))
        msg0_later info0 env_ok) =
     published nodelet1
     ++ [stamp_cloud msg0_later "kinect2_link" (cloud_of_points scenario_points)]).
Proof.
  split.
  - destruct (conversion_failure_is_logged nodelet1 msg0 info0
                (with_convert (Some device_lost) env_ok) device_lost)
      as (Hlog & _ & _ & _ & Hst & _).
    + reflexivity.
    + vm_compute. reflexivity.
    + vm_compute. reflexivity.
    + reflexivity.
    + split; [exact Hlog | exact Hst].
  - destruct (conversion_failure_is_logged nodelet1 msg0 info0
                (with_convert (Some device_hiccup) env_ok) device_hiccup)
      as (_ & _ & _ & _ & Hst & _ & Hnext).
    + reflexivity.
    + vm_compute. reflexivity.
    + vm_compute. reflexivity.
    + reflexivity.
    + split; [exact Hst|].
      apply (Hnext eq_refl msg0_later info0 env_ok (make_metadata msg0)
               (make_transform info0) scenario_points);
        vm_compute; reflexivity.
Defined.

(** ** Further properties of the callbacks *)

(** *** What one run of [depthCb] does to the engine *)

(** The calls one frame makes on the engine when OpenCL is available. With
    the flag not yet set: the setters, then [init_CL] with the configured
    path, [program_kernel] and [init_buffers], the setup stopping at the first
    of these that throws. In every case, also after a setup that threw,
    exactly one [convert_to_pcl] comes last; with the flag set it is the only
    call. *)
Theorem engine_calls_of_a_frame
  (n : Nodelet) (depth_msg : ImageMsg) (info_msg : CameraInfoMsg) (env : Env) :
  haveOpenCL env = true ->
  eng_calls (pcl_conversion_ (depthCb n depth_msg info_msg env)) =
    eng_calls (pcl_conversion_ n)
    ++ (if kernel_ready_ n then []
        else setup_calls (cl_file_path_ n) depth_msg info_msg env)
    ++ [ConvertToPcl].
Proof.
  intros Hcl. destruct (kernel_ready_ n) eqn:Hready.
  - apply ready_frame_calls; assumption.
  - apply setup_frame_calls; assumption.
Qed.

Lemma engine_calls_of_a_frame_witness :
  eng_calls (pcl_conversion_ (depthCb nodelet0 msg0 info0 env_kernel_fails)) =
    [SetMetaData (make_metadata msg0); SetTFData (make_transform info0); InitCloud;
     InitCL "/opt/pses/ocl_kernel/ocl_kernel.cl"; ProgramKernel "depth_to_pcl";
     ConvertToPcl].
Proof.
  rewrite (engine_calls_of_a_frame nodelet0 msg0 info0 env_kernel_fails).
  - reflexivity.
  - reflexivity.
Defined.


(** *** Publishing *)

Lemma step_published (n : Nodelet) (ev : Event) :
  exists new,
    published (step n ev) = published n ++ new /\
    (length new <= if is_Frame ev then 1 else 0)%nat.
Proof.
  destruct ev as [k|m i env]; simpl.
  - exists []. destruct (connectCb_fields k n) as (-> & _).
    rewrite app_nil_r. split; [reflexivity|simpl; lia].
  - destruct (sub_depth_ n).
    + destruct (depthCb_published n m i env) as [-> | [pc ->]].
      * exists []. rewrite app_nil_r. split; [reflexivity|simpl; lia].
      * exists [stamp_cloud m (tf_frame_ n) pc]. split; [reflexivity|simpl; lia].
    + exists []. rewrite app_nil_r. split; [reflexivity|simpl; lia].
Qed.

(** Clouds are only ever appended to what was published, at most one per
    frame received: connection notifications publish nothing and nothing
    published is withdrawn or replaced. *)
Theorem published_grows_with_frames (n : Nodelet) (evs : list Event) :
  exists new,
    published (run n evs) = published n ++ new /\
    (length new <= length (filter (fun ev => is_Frame ev = true) evs))%nat.
Proof.
  revert n. induction evs as [|ev evs IH]; intros n.
  - exists []. rewrite app_nil_r. split; [reflexivity|simpl; lia].
  - rewrite run_cons.
    destruct (step_published n ev) as (new1 & H1 & L1).
    destruct (IH (step n ev)) as (new2 & H2 & L2).
    exists (new1 ++ new2). rewrite H2, H1, app_assoc. split; [reflexivity|].
    rewrite length_app.
    destruct (is_Frame ev) eqn:Hev.
    + rewrite filter_cons_True by exact Hev. simpl. lia.
    + rewrite filter_cons_False by congruence. lia.
Qed.

(** *** Subscription *)

(** After a connection notification the depth subscription is active exactly
    when there is a subscriber. With subscribers and a subscription already
    active the notification changes nothing; with no subscriber it logs the
    stop message every time, also when the subscription was already shut
    down. Frames never change the subscription, so that after any run it is
    the last notification that decides. *)
Theorem subscription_follows_subscribers
  (n : Nodelet) (k : nat) (evs frames : list Event) :
  Forall (fun ev => is_Frame ev = true) frames ->
  sub_depth_ (connectCb k n) = bool_decide (k <> 0%nat) /\
  (k <> 0%nat -> sub_depth_ n = true -> connectCb k n = n) /\
  ros_log (connectCb 0 n) =
    ros_log n ++ [(LInfo, "Stopping conversion from depth image to XYZ pointcloud...")] /\
  sub_depth_ (run n (evs ++ Connect k :: frames)) = bool_decide (k <> 0%nat).
Proof.
  intros Hframes.
  assert (Hsub : forall m, sub_depth_ (connectCb k m) = bool_decide (k <> 0%nat)).
  { intros m. unfold connectCb. destruct k as [|k]; simpl; [reflexivity|].
    destruct (sub_depth_ m) eqn:Hs; simpl; [exact Hs|reflexivity]. }
  split; [apply Hsub|]. split; [|split].
  - intros Hk Hs. unfold connectCb. case_decide; [contradiction|].
    rewrite Hs. reflexivity.
  - reflexivity.
  - unfold run. rewrite fold_left_app. simpl. fold (run n evs).
    generalize (run n evs). intros m.
    rewrite <- (Hsub m). generalize (connectCb k m). clear Hsub.
    induction Hframes as [|ev frames Hev _ IH]; intros m'; [reflexivity|].
    simpl. rewrite IH. destruct ev as [k'|msg info env]; [discriminate|].
    simpl. destruct (sub_depth_ m') eqn:Hs; [|exact Hs].
    destruct (depthCb_static_fields m' msg info env) as (_ & _ & _ & ->). exact Hs.
Qed.

Lemma subscription_follows_subscribers_witness :
  sub_depth_ (run nodelet0 ([Frame msg0 info0 env_ok] ++ Connect 0 :: [Frame msg0 info0 env_ok]))
    = false.
Proof.
  destruct (subscription_follows_subscribers nodelet0 0 [Frame msg0 info0 env_ok]
              [Frame msg0 info0 env_ok]) as (_ & _ & _ & H).
  - repeat constructor.
  - exact H.
Defined.

(** *** The prepared state along a run *)

Lemma depthCb_camera_model
  (n : Nodelet) (depth_msg : ImageMsg) (info_msg : CameraInfoMsg) (env : Env) :
  camera_model_ (depthCb n depth_msg info_msg env) =
    if haveOpenCL env && negb (kernel_ready_ n) then Some info_msg else camera_model_ n.
Proof.
  unfold_cb. simpl.
  destruct (toCvCopy_throws env), (haveOpenCL env); simpl; try reflexivity;
    destruct (kernel_ready_ n); simpl; destruct_oracles; reflexivity.
Qed.

(** Once [kernel_ready_] is set it stays set along every run, through frames
    and through any number of subscribe and unsubscribe notifications, and the
    setup count, the metadata, the transform and the camera model stay what
    they were. *)
Theorem prepared_state_is_stable (n : Nodelet) (evs : list Event) :
  kernel_ready_ n = true ->
  kernel_ready_ (run n evs) = true /\
  setup_attempts (run n evs) = setup_attempts n /\
  eng_md (pcl_conversion_ (run n evs)) = eng_md (pcl_conversion_ n) /\
  eng_tf (pcl_conversion_ (run n evs)) = eng_tf (pcl_conversion_ n) /\
  camera_model_ (run n evs) = camera_model_ n.
Proof.
  intros Hready.
  apply (run_invariant
           (fun m => kernel_ready_ m = true /\
                     setup_attempts m = setup_attempts n /\
                     eng_md (pcl_conversion_ m) = eng_md (pcl_conversion_ n) /\
                     eng_tf (pcl_conversion_ m) = eng_tf (pcl_conversion_ n) /\
                     camera_model_ m = camera_model_ n)); [|auto].
  intros m ev (Hk & Ha & Hmd & Htf & Hcm). destruct ev as [k|msg info env]; simpl.
  - unfold connectCb, setup_attempts in *.
    case_decide; [|destruct (sub_depth_ m)]; simpl; auto.
  - destruct (sub_depth_ m); [|auto].
    destruct (depthCb_when_ready m msg info env Hk) as (Hk' & Ha' & Hmd' & Htf' & _).
    rewrite depthCb_camera_model, Hk, andb_false_r.
    rewrite Hk', Ha', Hmd', Htf'. auto.
Qed.

Lemma prepared_state_is_stable_witness :
  kernel_ready_ (run nodelet1 [Connect 0; Connect 2; Frame msg_2x2 info1 env_ok]) = true /\
  setup_attempts (run nodelet1 [Connect 0; Connect 2; Frame msg_2x2 info1 env_ok]) =
    setup_attempts nodelet1.
Proof.
  destruct (prepared_state_is_stable nodelet1
              [Connect 0; Connect 2; Frame msg_2x2 info1 env_ok]) as (Hk & Ha & _).
  - vm_compute. reflexivity.
  - split; [exact Hk | exact Ha].
Defined.

(** Along every run from [onInit]: while [kernel_ready_] is false the engine
    has received no call, holds no metadata, and nothing was published; once
    it is true, the metadata, the transform and the camera model all come from
    one and the same delivery, a frame received with OpenCL available. *)
Theorem engine_data_come_from_one_frame
  (params : gmap string ParamValue) (package_path : string) (evs : list Event) :
  let n := run (onInit params package_path) evs in
  (kernel_ready_ n = false ->
   pcl_conversion_ n = new_DepthImageToPCL /\ camera_model_ n = None /\
   published n = []) /\
  (kernel_ready_ n = true ->
   exists depth_msg info_msg env,
     Frame depth_msg info_msg env ∈ evs /\
     haveOpenCL env = true /\
     eng_md (pcl_conversion_ n) = Some (make_metadata depth_msg) /\
     eng_tf (pcl_conversion_ n) = Some (make_transform info_msg) /\
     camera_model_ n = Some info_msg).
Proof.
  cbv zeta. induction evs as [|ev evs [IHf IHt]] using rev_ind.
  - split; [intros _; repeat split|discriminate].
  - rewrite run_snoc. set (m := run (onInit params package_path) evs) in *.
    assert (Hold : kernel_ready_ m = true ->
                   exists depth_msg info_msg env,
                     Frame depth_msg info_msg env ∈ evs ++ [ev] /\
                     haveOpenCL env = true /\
                     eng_md (pcl_conversion_ m) = Some (make_metadata depth_msg) /\
                     eng_tf (pcl_conversion_ m) = Some (make_transform info_msg) /\
                     camera_model_ m = Some info_msg).
    { intros H. destruct (IHt H) as (dm & im & e & Hin & Hrest).
      exists dm, im, e. split; [|exact Hrest]. apply elem_of_app. left. exact Hin. }
    destruct ev as [k|msg info env]; simpl.
    + assert (Hc : kernel_ready_ (connectCb k m) = kernel_ready_ m /\
                   pcl_conversion_ (connectCb k m) = pcl_conversion_ m /\
                   camera_model_ (connectCb k m) = camera_model_ m /\
                   published (connectCb k m) = published m).
      { unfold connectCb. case_decide; [|destruct (sub_depth_ m)]; simpl; auto. }
      destruct Hc as (-> & -> & -> & ->). split; assumption.
    + destruct (sub_depth_ m); [|split; assumption].
      destruct (kernel_ready_ m) eqn:Hready.
      * destruct (depthCb_when_ready m msg info env Hready) as (Hk & _ & Hmd & Htf & _).
        split; [congruence|]. intros _.
        rewrite depthCb_camera_model, Hready, andb_false_r, Hmd, Htf. auto.
      * destruct (haveOpenCL env) eqn:Hcl.
        -- destruct (depthCb_first_setup m msg info env Hready Hcl) as (Hk & _ & Hmd & Htf).
           split; [congruence|]. intros _.
           exists msg, info, env. rewrite depthCb_camera_model, Hready, Hcl, Hmd, Htf.
           split; [|auto]. apply elem_of_app. right. apply list_elem_of_singleton.
           reflexivity.
        -- destruct (depthCb_without_opencl m msg info env Hcl) as (Hk & He & Hp).
           rewrite depthCb_camera_model, Hcl, Hk, He, Hp. simpl.
           split; [intros _; apply IHf; reflexivity|]. congruence.
Qed.

Lemma engine_data_come_from_one_frame_witness :
  exists depth_msg info_msg env,
    Frame depth_msg info_msg env ∈
      [Connect 1; Frame msg0 info0 env_no_opencl; Frame msg_2x2 info1 env_ok;
       Frame msg0 info0 env_ok] /\
    haveOpenCL env = true /\
    eng_md (pcl_conversion_
              (run (onInit ∅ "/opt/pses")
                 [Connect 1; Frame msg0 info0 env_no_opencl; Frame msg_2x2 info1 env_ok;
                  Frame msg0 info0 env_ok])) = Some (make_metadata depth_msg) /\
    eng_tf (pcl_conversion_
              (run (onInit ∅ "/opt/pses")
                 [Connect 1; Frame msg0 info0 env_no_opencl; Frame msg_2x2 info1 env_ok;
                  Frame msg0 info0 env_ok])) = Some (make_transform info_msg) /\
    camera_model_
      (run (onInit ∅ "/opt/pses")
         [Connect 1; Frame msg0 info0 env_no_opencl; Frame msg_2x2 info1 env_ok;
          Frame msg0 info0 env_ok]) = Some info_msg.
Proof.
  apply (engine_data_come_from_one_frame ∅ "/opt/pses"
           [Connect 1; Frame msg0 info0 env_no_opencl; Frame msg_2x2 info1 env_ok;
            Frame msg0 info0 env_ok]).
  vm_compute. reflexivity.
Defined.

(** *** Configuration *)

Lemma step_static_fields (n : Nodelet) (ev : Event) :
  cl_file_path_ (step n ev) = cl_file_path_ n /\
  tf_frame_ (step n ev) = tf_frame_ n /\
  queue_size_ (step n ev) = queue_size_ n.
Proof.
  destruct ev as [k|msg info env]; simpl.
  - unfold connectCb. case_decide; [|destruct (sub_depth_ n)]; simpl; auto.
  - destruct (sub_depth_ n); [|auto].
    destruct (depthCb_static_fields n msg info env) as (-> & -> & -> & _). auto.
Qed.

Lemma setup_calls_use_path (path : string) (depth_msg : ImageMsg)
  (info_msg : CameraInfoMsg) (env : Env) :
  Forall (call_uses path) (setup_calls path depth_msg info_msg env).
Proof.
  unfold setup_calls.
  destruct (init_CL_throws env), (program_kernel_throws env);
    repeat constructor.
Qed.

(** The values read from the parameter server by [onInit] are never changed
    by a callback, and along every run each [init_CL] is given the configured
    kernel file ([cl_file_path], by default [ocl_kernel/ocl_kernel.cl] under
    the package path) and each [program_kernel] the name [depth_to_pcl]. *)
Theorem kernel_source_is_the_configured_one
  (params : gmap string ParamValue) (package_path : string) (evs : list Event) :
  let n := run (onInit params package_path) evs in
  let path :=
    param_string params "cl_file_path" (package_path +:+ "/ocl_kernel/ocl_kernel.cl") in
  cl_file_path_ n = path /\
  tf_frame_ n = param_string params "tf_frame" "kinect2_link" /\
  queue_size_ n = param_int params "queue_size" 1 /\
  (forall p, InitCL p ∈ eng_calls (pcl_conversion_ n) -> p = path) /\
  (forall k, ProgramKernel k ∈ eng_calls (pcl_conversion_ n) -> k = "depth_to_pcl").
Proof.
  cbv zeta.
  set (path := param_string params "cl_file_path"
                 (package_path +:+ "/ocl_kernel/ocl_kernel.cl")).
  assert (H : cl_file_path_ (run (onInit params package_path) evs) = path /\
              tf_frame_ (run (onInit params package_path) evs) =
                param_string params "tf_frame" "kinect2_link" /\
              queue_size_ (run (onInit params package_path) evs) =
                param_int params "queue_size" 1 /\
              Forall (call_uses path)
                (eng_calls (pcl_conversion_ (run (onInit params package_path) evs)))).
  { apply (run_invariant
             (fun m => cl_file_path_ m = path /\
                       tf_frame_ m = param_string params "tf_frame" "kinect2_link" /\
                       queue_size_ m = param_int params "queue_size" 1 /\
                       Forall (call_uses path) (eng_calls (pcl_conversion_ m))));
      [|repeat split; constructor].
    intros m ev (Hp & Ht & Hq & Hc).
    destruct (step_static_fields m ev) as (-> & -> & ->).
    repeat (split; [assumption|]).
    destruct ev as [k|msg info env]; simpl.
    - destruct (connectCb_fields k m) as (_ & _ & _ & -> & _). exact Hc.
    - destruct (sub_depth_ m); [|exact Hc].
      destruct (haveOpenCL env) eqn:Hcl.
      + destruct (kernel_ready_ m) eqn:Hready.
        * rewrite ready_frame_calls by assumption.
          apply Forall_app. split; [exact Hc|repeat constructor].
        * rewrite setup_frame_calls by assumption.
          rewrite !Forall_app. rewrite Hp.
          split; [exact Hc|]. split; [apply setup_calls_use_path|repeat constructor].
      + destruct (depthCb_without_opencl m msg info env Hcl) as (_ & -> & _). exact Hc. }
  destruct H as (Hp & Ht & Hq & Hc).
  repeat (split; [assumption|]).
  rewrite Forall_forall in Hc. split.
  - intros p Hin. apply (Hc _ Hin).
  - intros k Hin. apply (Hc _ Hin).
Qed.

(** *** Requesting the shutdown *)

Lemma depthCb_log_grows
  (n : Nodelet) (depth_msg : ImageMsg) (info_msg : CameraInfoMsg) (env : Env) :
  exists entries, ros_log (depthCb n depth_msg info_msg env) = ros_log n ++ entries.
Proof.
  unfold_cb. simpl.
  destruct_oracles; rewrite <- ?app_assoc; eexists;
    try reflexivity; symmetry; apply app_nil_r.
Qed.

Lemma step_log_grows (n : Nodelet) (ev : Event) :
  exists entries, ros_log (step n ev) = ros_log n ++ entries.
Proof.
  destruct ev as [k|msg info env]; simpl.
  - unfold connectCb. case_decide; [|destruct (sub_depth_ n)]; simpl;
      eexists; try reflexivity; symmetry; apply app_nil_r.
  - destruct (sub_depth_ n); [apply depthCb_log_grows|].
    exists []. symmetry. apply app_nil_r.
Qed.

Lemma depthCb_shutdown_cases
  (n : Nodelet) (depth_msg : ImageMsg) (info_msg : CameraInfoMsg) (env : Env) :
  shutdown_requested (depthCb n depth_msg info_msg env) = shutdown_requested n \/
  exists e,
    haveOpenCL env = true /\ kernel_ready_ n = false /\ setup_exception env = Some e /\
    (LError, "An error occured during OCL setup! " +:+ what e)
      ∈ ros_log (depthCb n depth_msg info_msg env).
Proof.
  destruct (haveOpenCL env) eqn:Hcl.
  - destruct (kernel_ready_ n) eqn:Hready.
    + left. unfold_cb. simpl. rewrite Hcl.
      destruct (toCvCopy_throws env); simpl; rewrite Hready; simpl;
        destruct_oracles; reflexivity.
    + destruct (setup_exception env) as [e|] eqn:Hexn.
      * right. exists e. repeat (split; [reflexivity|]).
        revert Hexn. unfold setup_exception. unfold_cb. simpl. rewrite Hcl.
        destruct (toCvCopy_throws env); simpl; rewrite Hready; simpl;
          (destruct (init_CL_throws env) as [e1|];
           [|destruct (program_kernel_throws env) as [e2|];
             [|destruct (init_buffers_throws env) as [e3|]]]);
          intros Hexn; simplify_eq; simpl;
          destruct_oracles; set_solver.
      * left. revert Hexn. unfold setup_exception. unfold_cb. simpl. rewrite Hcl.
        destruct (toCvCopy_throws env); simpl; rewrite Hready; simpl;
          (destruct (init_CL_throws env) as [e1|];
           [|destruct (program_kernel_throws env) as [e2|];
             [|destruct (init_buffers_throws env) as [e3|]]]);
          intros Hexn; simplify_eq; simpl;
          destruct_oracles; reflexivity.
  - left. unfold_cb. simpl. rewrite Hcl. destruct (toCvCopy_throws env); reflexivity.
Qed.

(** The shutdown of the node is requested by a failed setup and by nothing
    else: along every run from [onInit], a shutdown request means that some
    frame was received with OpenCL available and a throwing setup, whose error
    is in the log. Missing OpenCL, decoding errors and conversion errors never
    request it. *)
Theorem shutdown_only_after_setup_failure
  (params : gmap string ParamValue) (package_path : string) (evs : list Event) :
  shutdown_requested (run (onInit params package_path) evs) = true ->
  exists depth_msg info_msg env e,
    Frame depth_msg info_msg env ∈ evs /\
    haveOpenCL env = true /\
    setup_exception env = Some e /\
    (LError, "An error occured during OCL setup! " +:+ what e)
      ∈ ros_log (run (onInit params package_path) evs).
Proof.
  induction evs as [|ev evs IH] using rev_ind; [discriminate|].
  rewrite run_snoc. set (m := run (onInit params package_path) evs) in *.
  intros Hsh.
  assert (Hold : shutdown_requested m = true ->
                 exists depth_msg info_msg env e,
                   Frame depth_msg info_msg env ∈ evs ++ [ev] /\
                   haveOpenCL env = true /\
                   setup_exception env = Some e /\
                   (LError, "An error occured during OCL setup! " +:+ what e)
                     ∈ ros_log (step m ev)).
  { intros H. destruct (IH H) as (dm & im & env & e & Hin & Hcl & Hexn & Hlog).
    exists dm, im, env, e. split; [apply elem_of_app; left; exact Hin|].
    repeat (split; [assumption|]).
    destruct (step_log_grows m ev) as (entries & ->).
    apply elem_of_app. left. exact Hlog. }
  destruct ev as [k|msg info env].
  - apply Hold. simpl in Hsh.
    destruct (connectCb_fields k m) as (_ & _ & _ & _ & Hs). congruence.
  - simpl in Hsh |- *. simpl in Hold.
    destruct (sub_depth_ m); [|auto].
    destruct (depthCb_shutdown_cases m msg info env)
      as [Hsame | (e & Hcl & _ & Hexn & Hlog)].
    + apply Hold. congruence.
    + exists msg, info, env, e.
      split; [apply elem_of_app; right; apply list_elem_of_singleton; reflexivity|].
      auto.
Qed.

Lemma shutdown_only_after_setup_failure_witness :
  exists depth_msg info_msg env e,
    Frame depth_msg info_msg env ∈ [Connect 1; Frame msg0 info0 env_kernel_fails] /\
    haveOpenCL env = true /\
    setup_exception env = Some e /\
    (LError, "An error occured during OCL setup! " +:+ what e)
      ∈ ros_log (run (onInit ∅ "/opt/pses") [Connect 1; Frame msg0 info0 env_kernel_fails]).
Proof.
  apply (shutdown_only_after_setup_failure ∅ "/opt/pses"
           [Connect 1; Frame msg0 info0 env_kernel_fails]).
  vm_compute. reflexivity.
Defined.

(** *** Metadata and time stamp *)

(** The metadata depend on the frame through its dimensions only, and the
    pixel count is the product of width and height reduced modulo [2^32]: it
    is the true count when the product fits 32 bits and falls short of it
    otherwise (a frame of 65536 x 65536 pixels gets a count of 0). *)
Theorem metadata_pixel_count (depth_msg : ImageMsg) :
  0 <= img_width depth_msg < uint32_max ->
  0 <= img_height depth_msg < uint32_max ->
  let md := make_metadata depth_msg in
  md_width md = img_width depth_msg /\
  md_height md = img_height depth_msg /\
  md_n_pixels md = (img_width depth_msg * img_height depth_msg) mod uint32_max /\
  (img_width depth_msg * img_height depth_msg < uint32_max ->
   md_n_pixels md = img_width depth_msg * img_height depth_msg) /\
  (uint32_max <= img_width depth_msg * img_height depth_msg ->
   md_n_pixels md < img_width depth_msg * img_height depth_msg) /\
  (forall other,
     img_width other = img_width depth_msg ->
     img_height other = img_height depth_msg ->
     make_metadata other = md).
Proof.
  intros Hw Hh. cbv zeta.
  unfold make_metadata, to_uint32; cbn [md_width md_height md_n_pixels].
  rewrite (Z.mod_small (img_width depth_msg)) by exact Hw.
  rewrite (Z.mod_small (img_height depth_msg)) by exact Hh.
  repeat split.
  - intros Hfit. apply Z.mod_small. nia.
  - intros Hbig.
    pose proof (Z.mod_pos_bound (img_width depth_msg * img_height depth_msg) uint32_max
                  ltac:(unfold uint32_max; lia)).
    lia.
  - intros other Hw' Hh'. rewrite Hw', Hh'.
    rewrite (Z.mod_small (img_width depth_msg)) by exact Hw.
    rewrite (Z.mod_small (img_height depth_msg)) by exact Hh.
    reflexivity.
Qed.

Lemma metadata_pixel_count_witness :
  md_n_pixels (make_metadata msg_huge) = 0 /\
  md_n_pixels (make_metadata msg_2x2) = 4.
Proof.
  split.
  - destruct (metadata_pixel_count msg_huge) as (_ & _ & H & _).
    + vm_compute. split; [discriminate|reflexivity].
    + vm_compute. split; [discriminate|reflexivity].
    + rewrite H. reflexivity.
  - destruct (metadata_pixel_count msg_2x2) as (_ & _ & _ & H & _).
    + vm_compute. split; [discriminate|reflexivity].
    + vm_compute. split; [discriminate|reflexivity].
    + apply H. vm_compute. reflexivity.
Defined.

Lemma is_uint32_time_range (t : Time) :
  is_uint32_time t = true ->
  0 <= sec t < uint32_max /\ 0 <= nsec t < uint32_max.
Proof.
  unfold is_uint32_time, is_uint32.
  intros [[Hs0 Hs1]%andb_true_iff [Hn0 Hn1]%andb_true_iff]%andb_true_iff.
  apply Z.leb_le in Hs0, Hn0. apply Z.ltb_lt in Hs1, Hn1. lia.
Qed.

(** The stamp written on a cloud, [toNSec() / 1000]: for a [ros::Time] the
    64-bit nanosecond count never wraps, the stamp is that count in
    microseconds rounded down, so that less than a microsecond is lost, and a
    later frame never gets an earlier stamp. *)
Theorem stamp_rounds_down_and_keeps_order (t1 t2 : Time) :
  is_uint32_time t1 = true ->
  is_uint32_time t2 = true ->
  toNSec t1 = total_nsec t1 /\
  1000 * (toNSec t1 / 1000) <= total_nsec t1 < 1000 * (toNSec t1 / 1000) + 1000 /\
  (total_nsec t1 <= total_nsec t2 -> toNSec t1 / 1000 <= toNSec t2 / 1000).
Proof.
  intros [Hs1 Hn1]%is_uint32_time_range [Hs2 Hn2]%is_uint32_time_range.
  unfold uint32_max in *.
  assert (E1 : toNSec t1 = total_nsec t1).
  { unfold toNSec, total_nsec, uint64_max. apply Z.mod_small. lia. }
  assert (E2 : toNSec t2 = total_nsec t2).
  { unfold toNSec, total_nsec, uint64_max. apply Z.mod_small. lia. }
  rewrite E1, E2. split; [reflexivity|]. split.
  - pose proof (Z.div_mod (total_nsec t1) 1000 ltac:(lia)).
    pose proof (Z.mod_pos_bound (total_nsec t1) 1000 ltac:(lia)). lia.
  - intros Hle. apply Z.div_le_mono; lia.
Qed.

Lemma stamp_rounds_down_and_keeps_order_witness :
  toNSec {| sec := 12; nsec := 345678 |} / 1000 <= toNSec {| sec := 13; nsec := 0 |} / 1000.
Proof.
  apply (stamp_rounds_down_and_keeps_order {| sec := 12; nsec := 345678 |}
           {| sec := 13; nsec := 0 |}).
  - reflexivity.
  - reflexivity.
  - vm_compute. discriminate.
Defined.

(** *** What the flag means *)

(** Along every run from [onInit], [kernel_ready_] is set exactly when the
    setup has been started, once: the flag records that the setup was
    attempted, whether or not it succeeded. *)
Theorem ready_flag_means_setup_started
  (params : gmap string ParamValue) (package_path : string) (evs : list Event) :
  let n := run (onInit params package_path) evs in
  (kernel_ready_ n = true <-> setup_attempts n = 1%nat) /\
  (kernel_ready_ n = false <-> setup_attempts n = 0%nat).
Proof.
  cbv zeta.
  assert (H : setup_attempts (run (onInit params package_path) evs) =
              if kernel_ready_ (run (onInit params package_path) evs) then 1%nat else 0%nat).
  { apply (run_invariant
             (fun m => setup_attempts m = if kernel_ready_ m then 1%nat else 0%nat));
      [|reflexivity].
    intros m ev Hm. destruct ev as [k|msg info env]; simpl.
    - destruct (connectCb_fields k m) as (_ & _ & Hk & He & _).
      unfold setup_attempts in *. rewrite Hk, He. exact Hm.
    - destruct (sub_depth_ m); [|exact Hm].
      destruct (kernel_ready_ m) eqn:Hready.
      + destruct (depthCb_when_ready m msg info env Hready) as (-> & -> & _). exact Hm.
      + destruct (haveOpenCL env) eqn:Hcl.
        * destruct (depthCb_first_setup m msg info env Hready Hcl) as (-> & -> & _).
          rewrite Hm. reflexivity.
        * destruct (depthCb_without_opencl m msg info env Hcl) as (Hk & He & _).
          unfold setup_attempts in *. rewrite Hk, He, Hready. exact Hm. }
  rewrite H. destruct (kernel_ready_ (run (onInit params package_path) evs));
    repeat split; intros; congruence.
Qed.
